(** * Amazon jobs scraper: ledger, filter and scraping cycle

    A shallow embedding of [scraper.py] (class [AmazonJobsScraper]) and the
    properties of its dedup-and-freshness pipeline.

    Conventions of the model.
    - A Python [str] is a [string]; the titles and dates considered are ASCII
      text, so [str.lower] is the ASCII lowering.
    - A naive [datetime] is the number of microseconds elapsed since
      0001-01-01T00:00:00 (a [Z]); its calendar fields are computed with the
      proleptic Gregorian conversions of the [datetime] module.
    - The table [seen_jobs] (primary key [job_id]) is a finite map from the
      identifier to the other columns.
    - The outside world (job source, Telegram, clock, health of the SQLite
      file) is part of the state the functions are run in.
    - A job record of the source is a JSON object with string fields, any of
      which may be missing.
    - Log output is not kept, no branch of the program reads it; the one
      exception is the number of rows the sweep reports to the log. *)

From Stdlib Require Import ZArith Lia Bool Ascii String List.
From stdpp Require Import gmap strings list fin_maps.
Import ListNotations.

Local Open Scope Z_scope.

(** ** Python strings *)

Module PyStr.

(** [c.lower()] on one ASCII character. *)
Definition lower_ascii (c : ascii) : ascii :=
  let n := nat_of_ascii c in
  if (Nat.leb 65 n && Nat.leb n 90)%bool then ascii_of_nat (n + 32) else c.

(** [s.lower()]. *)
Fixpoint lower (s : string) : string :=
  match s with
  | EmptyString => EmptyString
  | String c r => String (lower_ascii c) (lower r)
  end.

(** [needle in hay]: [needle] occurs as a contiguous run of [hay]. *)
Fixpoint contains (needle hay : string) : bool :=
  String.prefix needle hay ||
  match hay with
  | EmptyString => false
  | String _ r => contains needle r
  end.

(** [any(k in s for k in ks)]. *)
Definition any_in (ks : list string) (s : string) : bool :=
  existsb (fun k => contains k s) ks.

(** Width-[w] zero-padded decimal rendering, as [%0wd] prints a number
    below [10^w]. *)
Fixpoint pad (w : nat) (n : Z) : string :=
  match w with
  | O => EmptyString
  | S k => pad k (n / 10) +:+ String (ascii_of_nat (48 + Z.to_nat (n mod 10))) EmptyString
  end.

End PyStr.

(** ** The [datetime] module: calendar arithmetic *)

Module Calendar.

Definition is_leap (year : Z) : bool :=
  (year mod 4 =? 0) && (negb (year mod 100 =? 0) || (year mod 400 =? 0)).

Definition days_before_year (year : Z) : Z :=
  let y := year - 1 in y * 365 + y / 4 - y / 100 + y / 400.

Definition days_in_month_tbl (month : Z) : Z :=
  match month with
  | 1 => 31 | 2 => 28 | 3 => 31 | 4 => 30 | 5 => 31 | 6 => 30
  | 7 => 31 | 8 => 31 | 9 => 30 | 10 => 31 | 11 => 30 | 12 => 31
  | _ => 0
  end.

Definition days_before_month_tbl (month : Z) : Z :=
  match month with
  | 1 => 0 | 2 => 31 | 3 => 59 | 4 => 90 | 5 => 120 | 6 => 151
  | 7 => 181 | 8 => 212 | 9 => 243 | 10 => 273 | 11 => 304 | 12 => 334
  | _ => 0
  end.

Definition days_in_month (year month : Z) : Z :=
  if (month =? 2) && is_leap year then 29 else days_in_month_tbl month.

Definition days_before_month (year month : Z) : Z :=
  days_before_month_tbl month + (if (2 <? month) && is_leap year then 1 else 0).

(** [_ymd2ord]: 0001-01-01 is day 1. *)
Definition ymd2ord (year month day : Z) : Z :=
  days_before_year year + days_before_month year month + day.

Definition DI400Y : Z := 146097.
Definition DI100Y : Z := 36524.
Definition DI4Y : Z := 1461.

(** [_ord2ymd]. *)
Definition ord2ymd (ordinal : Z) : Z * Z * Z :=
  let n := ordinal - 1 in
  let n400 := n / DI400Y in
  let n := n mod DI400Y in
  let year := n400 * 400 + 1 in
  let n100 := n / DI100Y in
  let n := n mod DI100Y in
  let n4 := n / DI4Y in
  let n := n mod DI4Y in
  let n1 := n / 365 in
  let n := n mod 365 in
  let year := year + n100 * 100 + n4 * 4 + n1 in
  if (n1 =? 4) || (n100 =? 4) then (year - 1, 12, 31)
  else
    let leapyear := (n1 =? 3) && (negb (n4 =? 24) || (n100 =? 3)) in
    let month := Z.shiftr (n + 50) 5 in
    let preceding :=
      days_before_month_tbl month + (if (2 <? month) && leapyear then 1 else 0) in
    if n <? preceding then
      let month := month - 1 in
      let preceding :=
        preceding - (days_in_month_tbl month + (if (month =? 2) && leapyear then 1 else 0)) in
      (year, month, n - preceding + 1)
    else (year, month, n - preceding + 1).

Definition us_per_second : Z := 1000000.
Definition us_per_day : Z := 86400 * us_per_second.

(** A naive datetime, as microseconds since 0001-01-01T00:00:00. *)
Definition datetime := Z.

(** [datetime.min] and the first instant after [datetime.max]. *)
Definition in_range (t : datetime) : Prop :=
  0 <= t < ymd2ord 10000 1 1 * us_per_day - us_per_day.
Definition in_rangeb (t : datetime) : bool :=
  (0 <=? t) && (t <? ymd2ord 10000 1 1 * us_per_day - us_per_day).

(** [datetime(year, month, day)], midnight. *)
Definition of_ymd (year month day : Z) : datetime :=
  (ymd2ord year month day - 1) * us_per_day.

Definition date_of (t : datetime) : Z * Z * Z := ord2ymd (t / us_per_day + 1).
Definition hour (t : datetime) : Z := (t / (3600 * us_per_second)) mod 24.
Definition minute (t : datetime) : Z := (t / (60 * us_per_second)) mod 60.
Definition second (t : datetime) : Z := (t / us_per_second) mod 60.
Definition microsecond (t : datetime) : Z := t mod us_per_second.

(** [YYYY-MM-DD]. *)
Definition render_date (c : Z * Z * Z) : string :=
  let '(y, m, d) := c in
  PyStr.pad 4 y +:+ "-" +:+ PyStr.pad 2 m +:+ "-" +:+ PyStr.pad 2 d.

Definition date_text (t : datetime) : string := render_date (date_of t).

Definition time_text (t : datetime) : string :=
  PyStr.pad 2 (hour t) +:+ ":" +:+ PyStr.pad 2 (minute t) +:+ ":" +:+ PyStr.pad 2 (second t).

(** [t.isoformat()]: the fraction is printed only when it is not zero. *)
Definition isoformat (t : datetime) : string :=
  date_text t +:+ "T" +:+ time_text t +:+
  (if microsecond t =? 0 then "" else "." +:+ PyStr.pad 6 (microsecond t)).

(** The text SQLite stores for [CURRENT_TIMESTAMP] at the UTC instant [t]:
    ['YYYY-MM-DD HH:MM:SS']. *)
Definition sqlite_timestamp (t : datetime) : string :=
  date_text t +:+ " " +:+ time_text t.

(** Lexicographic order of calendar dates. *)
Definition date_ltb (a b : Z * Z * Z) : bool :=
  let '(y1, m1, d1) := a in
  let '(y2, m2, d2) := b in
  (y1 <? y2) || ((y1 =? y2) && ((m1 <? m2) || ((m1 =? m2) && (d1 <? d2)))).

Definition valid_date (c : Z * Z * Z) : Prop :=
  let '(y, m, d) := c in 1 <= y <= 9999 /\ 1 <= m <= 12 /\ 1 <= d <= 31.

End Calendar.

(** ** Records of the program *)

(** A job record of the search response: a JSON object whose fields are
    strings; a field may be missing ([None]). *)
Record RawJob := {
  raw_title : option string;
  raw_id_icims : option string;
  raw_posted_date : option string;
  raw_location : option string
}.

(** [d.get(key, dflt)]. *)
Definition dict_get (field : option string) (dflt : string) : string :=
  match field with Some v => v | None => dflt end.

(** The dictionary [job_data] built by the filter (lines 218-224). *)
Record JobData := {
  job_id : string;
  title : string;
  location : string;
  posted_date : string;
  url : string
}.

(** A row of [seen_jobs] without its key.  [created_at] is the UTC instant
    (whole seconds) whose text the column holds. *)
Record SeenJob := {
  seen_title : string;
  seen_location : string;
  seen_posted_date : string;
  created_at : Calendar.datetime
}.

(** What the GET of [fetch_jobs] leads to. *)
Inductive ApiReply :=
| RequestError                          (* requests.exceptions.RequestException *)
| JsonError                             (* json.JSONDecodeError *)
| OtherError                            (* any other exception *)
| Body (jobs : option (list RawJob)).   (* a JSON object, with or without 'jobs' *)

(** The state a method runs in. *)
Record World := {
  seen_jobs : gmap string SeenJob;      (* the table of jobs.db *)
  sqlite_ok : bool;                     (* do SQLite statements execute? *)
  utc_now : Calendar.datetime;          (* the clock, UTC *)
  tz_offset : Z;                        (* local time minus UTC, microseconds *)
  amazon : ApiReply;                    (* the job source *)
  telegram : list bool;                 (* outcomes of the coming sendMessage posts *)
  telegram_calls : list (JobData * bool)  (* posts made so far, with their outcome *)
}.

Definition with_seen_jobs (t : gmap string SeenJob) (w : World) : World :=
  {| seen_jobs := t; sqlite_ok := sqlite_ok w; utc_now := utc_now w;
     tz_offset := tz_offset w; amazon := amazon w; telegram := telegram w;
     telegram_calls := telegram_calls w |}.

Definition with_telegram (script : list bool) (calls : list (JobData * bool)) (w : World) : World :=
  {| seen_jobs := seen_jobs w; sqlite_ok := sqlite_ok w; utc_now := utc_now w;
     tz_offset := tz_offset w; amazon := amazon w; telegram := script;
     telegram_calls := calls |}.

(** [time.sleep(seconds)]: the clock moves on. *)
Definition sleep (seconds : Z) (w : World) : World :=
  {| seen_jobs := seen_jobs w; sqlite_ok := sqlite_ok w;
     utc_now := utc_now w + seconds * Calendar.us_per_second;
     tz_offset := tz_offset w; amazon := amazon w; telegram := telegram w;
     telegram_calls := telegram_calls w |}.

(** [datetime.now()]: naive local time. *)
Definition now (w : World) : Calendar.datetime := utc_now w + tz_offset w.

(** [CURRENT_TIMESTAMP]: UTC, whole seconds. *)
Definition current_timestamp (w : World) : Calendar.datetime :=
  utc_now w - utc_now w mod Calendar.us_per_second.

(** ** Ledger (lines 61-133) *)

(** [init_database]: [CREATE TABLE IF NOT EXISTS]; an error is raised again
    ([None]). *)
Definition init_database (w : World) : option World :=
  if sqlite_ok w then Some w else None.

(** [is_job_seen]: [SELECT 1 ... WHERE job_id = ?], [False] on any error. *)
Definition is_job_seen (w : World) (id : string) : bool :=
  if sqlite_ok w then
    match seen_jobs w !! id with Some _ => true | None => false end
  else false.

(** [mark_job_as_seen]: [INSERT OR REPLACE] of the four columns given, the
    fifth taking its default; an error is logged and swallowed. *)
Definition mark_job_as_seen (job_data : JobData) (w : World) : World :=
  if sqlite_ok w then
    with_seen_jobs
      (<[ job_id job_data :=
            {| seen_title := title job_data;
               seen_location := location job_data;
               seen_posted_date := posted_date job_data;
               created_at := current_timestamp w |} ]> (seen_jobs w)) w
  else w.

(** Every row carries a timestamp a datetime can hold. *)
Definition rows_in_range (w : World) : bool :=
  forallb (fun kv => Calendar.in_rangeb (created_at (snd kv))) (map_to_list (seen_jobs w)).

(** The condition [created_at < ?] of the DELETE: both sides are text. *)
Definition created_before (cutoff_date : Calendar.datetime) (row : SeenJob) : bool :=
  String.ltb (Calendar.sqlite_timestamp (created_at row)) (Calendar.isoformat cutoff_date).

(** [cleanup_old_jobs].  The method returns nothing; next to the new state
    stands [deleted_count] as it reaches the log: [None] when no line is
    written. *)
Definition cleanup_old_jobs (days_old : Z) (w : World) : World * option nat :=
  if sqlite_ok w then
    let cutoff_date := now w - days_old * Calendar.us_per_day in
    if Calendar.in_rangeb cutoff_date then
      let kept := filter (fun kv => created_before cutoff_date (snd kv) = false) (seen_jobs w) in
      let deleted_count := (size (seen_jobs w) - size kept)%nat in
      (with_seen_jobs kept w,
       if Nat.ltb 0 deleted_count then Some deleted_count else None)
    else (w, None)                       (* OverflowError, caught *)
  else (w, None).

(** ** Fetcher (lines 135-159) *)

Definition fetch_jobs (w : World) : list RawJob :=
  match amazon w with
  | Body (Some jobs) => jobs
  | Body None => []
  | RequestError => []
  | JsonError => []
  | OtherError => []
  end.

(** ** Notifier (lines 234-263) *)

(** The text posted for a job; it opens with the four bytes of the siren
    emoji. *)
Definition message_of (job_data : JobData) : string :=
  String "240" (String "159" (String "154" (String "168"
  (" New Amazon SDE-1 Role!" +:+ String "010" (String "010"
  ("Title: " +:+ title job_data +:+ String "010"
  ("Location: " +:+ location job_data +:+ String "010"
  ("Posted: " +:+ posted_date job_data +:+ String "010"
  ("Apply: " +:+ url job_data +:+ String "010" (String "010"
  "#AmazonJobs #SDE1 #SoftwareEngineer")))))))))).

(** [send_telegram_notification]: [True] when the post went through.  The
    trace keeps the job of each post; its text is [message_of] of that job. *)
Definition send_telegram_notification (job_data : JobData) (w : World) : bool * World :=
  match telegram w with
  | true :: rest => (true, with_telegram rest (telegram_calls w ++ [(job_data, true)]) w)
  | false :: rest => (false, with_telegram rest (telegram_calls w ++ [(job_data, false)]) w)
  | [] => (false, with_telegram [] (telegram_calls w ++ [(job_data, false)]) w)
  end.

(** ** Start of the process (lines 24-59 and 300-350) *)

(** The two environment variables read by [__init__]. *)
Record Env := {
  TELEGRAM_BOT_TOKEN : option string;
  TELEGRAM_CHAT_ID : option string
}.

(** [not os.getenv(name)]: the variable is unset or empty. *)
Definition unset (v : option string) : bool :=
  match v with
  | None => true
  | Some EmptyString => true
  | Some (String _ _) => false
  end.

Inductive InitError :=
| MissingCredentials                    (* ValueError of line 30 *)
| DatabaseError.                        (* raised again by init_database *)

(** [__init__]: the credentials are checked before the table is created.
    The query parameters and the HTTP session hold no state of the model. *)
Definition init_scraper (env : Env) (w : World) : InitError + World :=
  if unset (TELEGRAM_BOT_TOKEN env) || unset (TELEGRAM_CHAT_ID env)
  then inl MissingCredentials
  else match init_database w with
       | Some w' => inr w'
       | None => inl DatabaseError
       end.

(** [test_setup]: one post to Telegram; it announces no job and is not
    entered in [telegram_calls]. *)
Definition test_setup (w : World) : bool * World :=
  match telegram w with
  | sent :: rest => (sent, with_telegram rest (telegram_calls w) w)
  | [] => (false, w)
  end.

(** Where [main] stands when it leaves or enters the loop of lines 342-344. *)
Inductive MainOutcome :=
| Fatal (e : InitError)                 (* logged and raised again *)
| SetupFailed (w : World)               (* return of line 331 *)
| Scheduling (w : World).               (* the first cycle is done *)

(** Number of posts that went through. *)
Definition deliveries (calls : list (JobData * bool)) : nat :=
  length (List.filter snd calls).

(** ** A fragment of [datetime.strptime], to run examples

    [strptime_padded] is the library function restricted to the format
    ['%Y-%m-%d'] and to texts of the shape [DDDD-DD-DD]: there it answers as
    the library does.  On every other pair it answers [None], although the
    library parses more (one-digit months and days, the three other formats);
    the examples use zero-padded ISO dates and texts no format accepts. *)

Definition digit_of (c : ascii) : option Z :=
  let n := nat_of_ascii c in
  if (Nat.leb 48 n && Nat.leb n 57)%bool then Some (Z.of_nat n - 48) else None.

Definition number_of (cs : list ascii) : option Z :=
  fold_left (fun acc c =>
               match acc, digit_of c with
               | Some a, Some d => Some (10 * a + d)
               | _, _ => None
               end) cs (Some 0).

Definition strptime_padded (text fmt : string) : option Calendar.datetime :=
  if String.eqb fmt "%Y-%m-%d" then
    match list_ascii_of_string text with
    | [y1; y2; y3; y4; dash1; m1; m2; dash2; d1; d2] =>
        if (Ascii.eqb dash1 "-" && Ascii.eqb dash2 "-")%bool then
          match number_of [y1; y2; y3; y4], number_of [m1; m2], number_of [d1; d2] with
          | Some y, Some m, Some d =>
              if (1 <=? y) && (1 <=? m) && (m <=? 12) && (1 <=? d)
                 && (d <=? Calendar.days_in_month y m)
              then Some (Calendar.of_ymd y m d) else None
          | _, _, _ => None
          end
        else None
    | _ => None
    end
  else None.

(** ** Sample data for the examples *)

Definition at_clock (year month day h m : Z) : Calendar.datetime :=
  Calendar.of_ymd year month day + (h * 3600 + m * 60) * Calendar.us_per_second.

Definition alexa : RawJob :=
  {| raw_title := Some "Software Development Engineer I, Alexa";
     raw_id_icims := Some "2500001";
     raw_posted_date := Some "2024-01-15";
     raw_location := Some "Seattle, WA, USA" |}.

Definition devices : RawJob :=
  {| raw_title := Some "SDE 1 - Devices";
     raw_id_icims := Some "2500002";
     raw_posted_date := Some "2024-01-15";
     raw_location := Some "Bengaluru, KA, IND" |}.

Definition alexa_reposted : RawJob :=
  {| raw_title := Some "SDE I, Alexa (reposted)";
     raw_id_icims := Some "2500001";
     raw_posted_date := Some "2024-01-15";
     raw_location := Some "Seattle, WA, USA" |}.

Definition kindle : RawJob :=
  {| raw_title := Some "SDE I - Kindle";
     raw_id_icims := None;
     raw_posted_date := Some "2024-01-15";
     raw_location := Some "Chennai, TN, IND" |}.

Definition fire_tv : RawJob :=
  {| raw_title := Some "SDE 1, Fire TV";
     raw_id_icims := None;
     raw_posted_date := Some "2024-01-15";
     raw_location := Some "Austin, TX, USA" |}.

Definition sample_world (clock : Calendar.datetime) (table : gmap string SeenJob)
    (reply : ApiReply) (script : list bool) : World :=
  {| seen_jobs := table; sqlite_ok := true; utc_now := clock; tz_offset := 0;
     amazon := reply; telegram := script; telegram_calls := [] |}.

Definition sample_row (label : string) (created : Calendar.datetime) : SeenJob :=
  {| seen_title := label; seen_location := "Seattle, WA, USA";
     seen_posted_date := "2023-12-24"; created_at := created |}.

(** 15 January 2024, 10:00: nothing seen yet. *)
Definition morning (reply : ApiReply) (script : list bool) : World :=
  sample_world (at_clock 2024 1 15 10 0) ∅ reply script.

(** 31 January 2024, 00:05, inside the window of the sweep; thirty days
    earlier is 1 January 2024, 00:05. *)
Definition midnight : World :=
  sample_world (at_clock 2024 1 31 0 5)
    (<[ "2400001" := sample_row "SDE I, Ads" (at_clock 2023 12 25 8 0) ]>
     (<[ "2500001" := sample_row "SDE I, Alexa" (at_clock 2024 1 1 23 0) ]>
      (<[ "2500002" := sample_row "SDE 1 - Devices" (at_clock 2024 1 10 9 30) ]> ∅)))
    RequestError [].

Definition manager : RawJob :=
  {| raw_title := Some "Software Development Manager, Alexa";
     raw_id_icims := Some "2500003";
     raw_posted_date := Some "2024-01-15";
     raw_location := Some "Seattle, WA, USA" |}.

Definition untitled : RawJob :=
  {| raw_title := None;
     raw_id_icims := Some "2500004";
     raw_posted_date := Some "2024-01-15";
     raw_location := Some "Seattle, WA, USA" |}.

Definition undated : RawJob :=
  {| raw_title := Some "SDE I, Prime Video";
     raw_id_icims := Some "2500005";
     raw_posted_date := Some "posted today";
     raw_location := None |}.

Definition level_one : RawJob :=
  {| raw_title := Some "SDE I";
     raw_id_icims := Some "2500006";
     raw_posted_date := Some "2024-01-15";
     raw_location := Some "Seattle, WA, USA" |}.

Definition level_three : RawJob :=
  {| raw_title := Some "Senior SDE III, Alexa";
     raw_id_icims := Some "2500007";
     raw_posted_date := Some "2024-01-15";
     raw_location := Some "Seattle, WA, USA" |}.

(** The same state with failing SQLite statements. *)
Definition storage_down (w : World) : World :=
  {| seen_jobs := seen_jobs w; sqlite_ok := false; utc_now := utc_now w;
     tz_offset := tz_offset w; amazon := amazon w; telegram := telegram w;
     telegram_calls := telegram_calls w |}.

Definition with_amazon (reply : ApiReply) (script : list bool) (w : World) : World :=
  {| seen_jobs := seen_jobs w; sqlite_ok := sqlite_ok w; utc_now := utc_now w;
     tz_offset := tz_offset w; amazon := reply; telegram := script;
     telegram_calls := telegram_calls w |}.

Definition credentials : Env :=
  {| TELEGRAM_BOT_TOKEN := Some "4242:token"; TELEGRAM_CHAT_ID := Some "-1001" |}.

Section Scraper.

(** [datetime.strptime(text, fmt)]: the parsed datetime, or [None] for
    [ValueError]. *)
Variable strptime : string -> string -> option Calendar.datetime.

(** ** Filter (lines 161-232) *)

Definition date_formats : list string :=
  ["%B %d, %Y"; "%b %d, %Y"; "%Y-%m-%d"; "%m/%d/%Y"].

(** The loop of lines 175-180: the first format that parses wins. *)
Fixpoint parse_posted_date (formats : list string) (posted_date_str : string)
  : option Calendar.datetime :=
  match formats with
  | [] => None
  | date_format :: rest =>
      match strptime posted_date_str date_format with
      | Some posted => Some posted
      | None => parse_posted_date rest posted_date_str
      end
  end.

(** [is_recent_job].  [total_seconds()] is the exact quotient rounded to
    a float; 86400 is a float and rounding is monotone, so the comparison
    is the one on microseconds. *)
Definition is_recent_job (w : World) (posted_date_str : string) : bool :=
  match parse_posted_date date_formats posted_date_str with
  | None => false
  | Some posted =>
      let time_diff := now w - posted in
      time_diff <=? 24 * 60 * 60 * Calendar.us_per_second
  end.

Definition role_keywords : list string :=
  ["sde 1"; "software development engineer i"; "sde i"].

Definition job_url (id : string) : string :=
  "https://www.amazon.jobs/en/jobs/" +:+ id +:+ "/apply".

(** Lines 218-224. *)
Definition job_data_of (job : RawJob) : JobData :=
  let id := dict_get (raw_id_icims job) "" in
  {| job_id := id;
     title := dict_get (raw_title job) "N/A";
     location := dict_get (raw_location job) "N/A";
     posted_date := dict_get (raw_posted_date job) "";
     url := job_url id |}.

(** One turn of the loop of [filter_sde1_jobs]; with string fields no call
    of the body raises, so the handler of lines 228-230 is not entered. *)
Definition filter_step (w : World) (filtered_jobs : list JobData) (job : RawJob)
  : list JobData :=
  let title := PyStr.lower (dict_get (raw_title job) "") in
  let id := dict_get (raw_id_icims job) "" in
  if negb (PyStr.any_in role_keywords title) then filtered_jobs
  else
    let posted_date := dict_get (raw_posted_date job) "" in
    if negb (is_recent_job w posted_date) then filtered_jobs
    else if is_job_seen w id then filtered_jobs
    else filtered_jobs ++ [job_data_of job].

Definition filter_sde1_jobs (w : World) (jobs : list RawJob) : list JobData :=
  fold_left (filter_step w) jobs [].

(** ** Cycle controller (lines 265-298) *)

(** The loop of lines 286-289. *)
Fixpoint notify_all (new_jobs : list JobData) (w : World) : World :=
  match new_jobs with
  | [] => w
  | job :: rest =>
      let '(sent, w1) := send_telegram_notification job w in
      if sent then notify_all rest (sleep 1 (mark_job_as_seen job w1))
      else notify_all rest w1
  end.

Definition in_cleanup_window (w : World) : bool :=
  (Calendar.hour (now w) =? 0) && (Calendar.minute (now w) <? 15).

(** [run_scraping_cycle].  Every call made here catches its own errors, so
    the handler of lines 297-298 is not entered. *)
Definition run_scraping_cycle (w : World) : World :=
  let jobs := fetch_jobs w in
  match jobs with
  | [] => w
  | _ :: _ =>
      let new_jobs := filter_sde1_jobs w jobs in
      match new_jobs with
      | [] => w
      | _ :: _ =>
          let w1 := notify_all new_jobs w in
          if in_cleanup_window w1 then fst (cleanup_old_jobs 30 w1) else w1
      end
  end.


(** ** The filter as a selection *)

(** The three conditions of the filter, on one record. *)
Definition role_match (job : RawJob) : bool :=
  existsb (fun k => PyStr.contains (PyStr.lower k)
                      (PyStr.lower (dict_get (raw_title job) "")))
          role_keywords.

Definition fresh (w : World) (job : RawJob) : bool :=
  is_recent_job w (dict_get (raw_posted_date job) "").

Definition novel (w : World) (job : RawJob) : bool :=
  negb (is_job_seen w (dict_get (raw_id_icims job) "")).

Definition notifiable (w : World) (job : RawJob) : bool :=
  role_match job && fresh w job && novel w job.

(** The filter as the specification words it. *)
Definition spec_filter (w : World) (jobs : list RawJob) : list JobData :=
  map job_data_of (List.filter (notifiable w) jobs).

Definition fetch_fails (reply : ApiReply) : bool :=
  match reply with Body _ => false | _ => true end.

(** The posts the loop of lines 286-289 makes for [new_jobs] when the
    coming outcomes are [script]; an exhausted script means failure. *)
Fixpoint outcomes (new_jobs : list JobData) (script : list bool)
  : list (JobData * bool) :=
  match new_jobs with
  | [] => []
  | job :: rest => (job, hd false script) :: outcomes rest (tl script)
  end.

(** Number of posts made for an identifier, and of those that went
    through. *)
Definition posts_for (id : string) (calls : list (JobData * bool)) : nat :=
  length (List.filter (fun c => String.eqb (job_id (fst c)) id) calls).

Definition delivered_for (id : string) (calls : list (JobData * bool)) : nat :=
  length (List.filter (fun c => String.eqb (job_id (fst c)) id && snd c) calls).

Definition has_id (job : RawJob) : bool :=
  match raw_id_icims job with Some _ => true | None => false end.

(** Two states with the same ledger, as [is_job_seen] reads it. *)
Definition same_ledger (w w' : World) : Prop :=
  seen_jobs w' = seen_jobs w /\ sqlite_ok w' = sqlite_ok w.

(** [main] up to the scheduling loop: the scraper is built, the test
    message is posted and, when it went through, one cycle is run at once.
    The loop itself is driven by the [schedule] package and is not part of
    the model. *)
Definition main_startup (env : Env) (w : World) : MainOutcome :=
  match init_scraper env w with
  | inl e => Fatal e
  | inr w0 =>
      let '(passed, w1) := test_setup w0 in
      if passed then Scheduling (run_scraping_cycle w1) else SetupFailed w1
  end.

Lemma role_match_keywords job :
  role_match job = PyStr.any_in role_keywords (PyStr.lower (dict_get (raw_title job) "")).
Proof. reflexivity. Qed.

Lemma filter_step_notifiable w acc job :
  filter_step w acc job = if notifiable w job then acc ++ [job_data_of job] else acc.
Proof.
  unfold filter_step, notifiable, fresh, novel.
  rewrite role_match_keywords.
  destruct (PyStr.any_in _ _); simpl; [|reflexivity].
  destruct (is_recent_job _ _); simpl; [|reflexivity].
  destruct (is_job_seen _ _); reflexivity.
Qed.

Lemma filter_loop_acc w jobs : forall acc,
  fold_left (filter_step w) jobs acc = acc ++ spec_filter w jobs.
Proof.
  unfold spec_filter.
  induction jobs as [|job jobs IH]; intros acc; simpl.
  - symmetry. apply app_nil_r.
  - rewrite IH, filter_step_notifiable.
    destruct (notifiable w job); simpl; [|reflexivity].
    rewrite <- app_assoc. reflexivity.
Qed.

Lemma filter_sde1_jobs_spec w jobs : filter_sde1_jobs w jobs = spec_filter w jobs.
Proof. unfold filter_sde1_jobs. apply filter_loop_acc. Qed.

Lemma filter_sde1_jobs_app w xs ys :
  filter_sde1_jobs w (xs ++ ys) = filter_sde1_jobs w xs ++ filter_sde1_jobs w ys.
Proof.
  rewrite !filter_sde1_jobs_spec. unfold spec_filter.
  rewrite List.filter_app, map_app. reflexivity.
Qed.

Lemma filter_sde1_jobs_cons w job jobs :
  filter_sde1_jobs w (job :: jobs) =
  (if notifiable w job then [job_data_of job] else []) ++ filter_sde1_jobs w jobs.
Proof.
  rewrite !filter_sde1_jobs_spec. unfold spec_filter. simpl.
  destruct (notifiable w job); reflexivity.
Qed.

(** With working storage [is_job_seen] is the lookup in the table; when a
    statement fails the answer is [False]. *)
Lemma is_job_seen_healthy w id :
  sqlite_ok w = true -> (is_job_seen w id = true <-> is_Some (seen_jobs w !! id)).
Proof.
  intros Hok. unfold is_job_seen. rewrite Hok.
  destruct (seen_jobs w !! id) as [row|]; split; intros H; eauto.
  - discriminate.
  - destruct H as [row H]. discriminate.
Qed.

Lemma is_job_seen_storage_down w id :
  sqlite_ok w = false -> is_job_seen w id = false.
Proof. intros Hdown. unfold is_job_seen. rewrite Hdown. reflexivity. Qed.

(** The row written by [mark_job_as_seen] is found under the job's
    identifier. *)
Lemma mark_job_as_seen_lookup w job :
  sqlite_ok w = true ->
  is_Some (seen_jobs (mark_job_as_seen job w) !! job_id job).
Proof.
  intros Hok. unfold mark_job_as_seen. rewrite Hok. cbn [with_seen_jobs seen_jobs].
  rewrite lookup_insert_eq. eauto.
Qed.

Lemma mark_job_as_seen_sqlite_ok job w :
  sqlite_ok (mark_job_as_seen job w) = sqlite_ok w.
Proof. unfold mark_job_as_seen. destruct (sqlite_ok w) eqn:E; simpl; auto. Qed.


(** C8. When the posted date parses, the job is fresh exactly when now
    minus the parsed date is at most 24 hours; a date in the future is
    therefore always fresh. *)
Theorem fresh_iff_within_24h w text posted :
  parse_posted_date date_formats text = Some posted ->
  (is_recent_job w text = true <->
   now w - posted <= 24 * 60 * 60 * Calendar.us_per_second)
  /\ (now w - posted < 0 -> is_recent_job w text = true).
Proof.
  intros Hparse. unfold is_recent_job. rewrite Hparse. cbv zeta.
  rewrite Z.leb_le. split; [tauto|].
  intros Hneg. unfold Calendar.us_per_second. lia.
Qed.

(** C5. Recording a job and then asking whether its identifier is seen
    answers true, provided the storage statements execute. *)
Theorem record_then_seen w job :
  sqlite_ok w = true ->
  is_job_seen (mark_job_as_seen job w) (job_id job) = true.
Proof.
  intros Hok. unfold is_job_seen.
  rewrite mark_job_as_seen_sqlite_ok, Hok.
  destruct (mark_job_as_seen_lookup w job Hok) as [row Hrow].
  rewrite Hrow. reflexivity.
Qed.

(** C4. When the request of the fetcher fails, in whatever way, the
    fetcher returns the empty list and the cycle ends as a no-op: the
    state is returned as it was, so no notification is posted and the
    ledger is not written. *)
Theorem failed_fetch_cycle_is_noop w :
  fetch_fails (amazon w) = true ->
  fetch_jobs w = []
  /\ run_scraping_cycle w = w
  /\ telegram_calls (run_scraping_cycle w) = telegram_calls w
  /\ seen_jobs (run_scraping_cycle w) = seen_jobs w.
Proof.
  intros Hfail.
  assert (Hfetch : fetch_jobs w = []).
  { unfold fetch_jobs. destruct (amazon w); try reflexivity. discriminate. }
  assert (Hrun : run_scraping_cycle w = w).
  { unfold run_scraping_cycle. rewrite Hfetch. reflexivity. }
  rewrite Hrun. auto.
Qed.


(** ** Frame properties of the notifier and of the loop *)

Lemma send_telegram_notification_eq job w :
  send_telegram_notification job w =
  (hd false (telegram w),
   with_telegram (tl (telegram w))
     (telegram_calls w ++ [(job, hd false (telegram w))]) w).
Proof.
  unfold send_telegram_notification.
  destruct (telegram w) as [|[] rest]; reflexivity.
Qed.

Lemma notify_all_cons job rest w :
  notify_all (job :: rest) w =
  let w1 := with_telegram (tl (telegram w))
              (telegram_calls w ++ [(job, hd false (telegram w))]) w in
  if hd false (telegram w) then notify_all rest (sleep 1 (mark_job_as_seen job w1))
  else notify_all rest w1.
Proof. cbn [notify_all]. rewrite send_telegram_notification_eq. reflexivity. Qed.

Lemma mark_job_as_seen_telegram job w :
  telegram (mark_job_as_seen job w) = telegram w.
Proof. unfold mark_job_as_seen. destruct (sqlite_ok w); reflexivity. Qed.

Lemma mark_job_as_seen_calls job w :
  telegram_calls (mark_job_as_seen job w) = telegram_calls w.
Proof. unfold mark_job_as_seen. destruct (sqlite_ok w); reflexivity. Qed.

Lemma notify_all_sqlite_ok new_jobs : forall w,
  sqlite_ok (notify_all new_jobs w) = sqlite_ok w.
Proof.
  induction new_jobs as [|job rest IH]; intros w; [reflexivity|].
  rewrite notify_all_cons. cbv zeta.
  destruct (hd false (telegram w)); rewrite IH; [|reflexivity].
  simpl. rewrite mark_job_as_seen_sqlite_ok. reflexivity.
Qed.

Lemma notify_all_calls new_jobs : forall w,
  telegram_calls (notify_all new_jobs w) =
  telegram_calls w ++ outcomes new_jobs (telegram w).
Proof.
  induction new_jobs as [|job rest IH]; intros w.
  - simpl. symmetry. apply app_nil_r.
  - rewrite notify_all_cons. cbv zeta.
    destruct (hd false (telegram w)) eqn:Hd; rewrite IH; simpl.
    + rewrite mark_job_as_seen_telegram, mark_job_as_seen_calls.
      simpl. rewrite Hd, <- app_assoc. reflexivity.
    + rewrite Hd, <- app_assoc. reflexivity.
Qed.

Lemma notify_all_storage_down new_jobs : forall w,
  sqlite_ok w = false -> seen_jobs (notify_all new_jobs w) = seen_jobs w.
Proof.
  induction new_jobs as [|job rest IH]; intros w Hdown; [reflexivity|].
  rewrite notify_all_cons. cbv zeta.
  destruct (hd false (telegram w)); rewrite IH; try reflexivity; try exact Hdown.
  - unfold mark_job_as_seen. simpl. rewrite Hdown. reflexivity.
  - simpl. unfold mark_job_as_seen. simpl. rewrite Hdown. exact Hdown.
Qed.

Lemma mark_job_as_seen_keeps_keys job w id :
  is_Some (seen_jobs w !! id) -> is_Some (seen_jobs (mark_job_as_seen job w) !! id).
Proof.
  intros Hsome. unfold mark_job_as_seen. destruct (sqlite_ok w); [|exact Hsome].
  simpl. destruct (decide (job_id job = id)) as [->|Hne].
  - rewrite lookup_insert_eq. eauto.
  - rewrite lookup_insert_ne by exact Hne. exact Hsome.
Qed.

Lemma notify_all_keeps_keys new_jobs id : forall w,
  is_Some (seen_jobs w !! id) -> is_Some (seen_jobs (notify_all new_jobs w) !! id).
Proof.
  induction new_jobs as [|job rest IH]; intros w Hsome; [exact Hsome|].
  rewrite notify_all_cons. cbv zeta.
  destruct (hd false (telegram w)); apply IH; [|exact Hsome].
  simpl. apply (mark_job_as_seen_keeps_keys job
                  (with_telegram (tl (telegram w)) (telegram_calls w ++ [(job, true)]) w)).
  exact Hsome.
Qed.

(** A delivered job is in the table when the loop ends. *)
Lemma notify_all_records_delivered new_jobs job : forall w,
  sqlite_ok w = true ->
  In (job, true) (outcomes new_jobs (telegram w)) ->
  is_Some (seen_jobs (notify_all new_jobs w) !! job_id job).
Proof.
  induction new_jobs as [|j rest IH]; intros w Hok Hin; [destruct Hin|].
  rewrite notify_all_cons. cbv zeta. cbn [outcomes] in Hin.
  destruct Hin as [Heq|Hin].
  - injection Heq as -> Hsent. rewrite Hsent.
    apply notify_all_keeps_keys. simpl.
    unfold mark_job_as_seen. simpl. rewrite Hok. simpl.
    rewrite lookup_insert_eq. eauto.
  - destruct (hd false (telegram w)); apply IH.
    + simpl. rewrite mark_job_as_seen_sqlite_ok. exact Hok.
    + simpl. rewrite mark_job_as_seen_telegram. exact Hin.
    + exact Hok.
    + exact Hin.
Qed.

(** An identifier none of whose posts went through keeps its row, or its
    absence, through the loop. *)
Lemma notify_all_undelivered new_jobs id : forall w,
  (forall c, In c (outcomes new_jobs (telegram w)) -> job_id (fst c) = id -> snd c = false) ->
  seen_jobs (notify_all new_jobs w) !! id = seen_jobs w !! id.
Proof.
  induction new_jobs as [|job rest IH]; intros w Hnone; [reflexivity|].
  rewrite notify_all_cons. cbv zeta. cbn [outcomes] in Hnone.
  destruct (hd false (telegram w)) eqn:Hd.
  - rewrite IH.
    + simpl. unfold mark_job_as_seen. simpl. destruct (sqlite_ok w); [|reflexivity].
      simpl. apply lookup_insert_ne. intros Heq.
      specialize (Hnone (job, true) (or_introl eq_refl) Heq). discriminate.
    + intros c Hin. apply Hnone. right.
      simpl in Hin. rewrite mark_job_as_seen_telegram in Hin. exact Hin.
  - rewrite IH; [reflexivity|].
    intros c Hin. apply Hnone. right. exact Hin.
Qed.

Lemma cleanup_old_jobs_frame days w :
  sqlite_ok (fst (cleanup_old_jobs days w)) = sqlite_ok w
  /\ telegram_calls (fst (cleanup_old_jobs days w)) = telegram_calls w.
Proof.
  unfold cleanup_old_jobs. destruct (sqlite_ok w) eqn:E; [|auto].
  destruct (Calendar.in_rangeb _); simpl; auto.
Qed.

(** The sweep only deletes: a row found afterwards was there before,
    unchanged. *)
Lemma cleanup_old_jobs_only_deletes days w id row :
  seen_jobs (fst (cleanup_old_jobs days w)) !! id = Some row ->
  seen_jobs w !! id = Some row.
Proof.
  unfold cleanup_old_jobs. destruct (sqlite_ok w); [|auto].
  destruct (Calendar.in_rangeb _); simpl; [|auto].
  apply map_lookup_filter_Some_1_1.
Qed.

Lemma cleanup_old_jobs_storage_down days w :
  sqlite_ok w = false -> cleanup_old_jobs days w = (w, None).
Proof. intros Hdown. unfold cleanup_old_jobs. rewrite Hdown. reflexivity. Qed.

Lemma cleanup_old_jobs_keeps_absent days w id :
  seen_jobs w !! id = None -> seen_jobs (fst (cleanup_old_jobs days w)) !! id = None.
Proof.
  intros Habsent.
  destruct (seen_jobs (fst (cleanup_old_jobs days w)) !! id) as [row|] eqn:E; [|reflexivity].
  apply cleanup_old_jobs_only_deletes in E. congruence.
Qed.

(** The cycle in one equation. *)
Lemma run_scraping_cycle_eq w :
  run_scraping_cycle w =
  let new_jobs := filter_sde1_jobs w (fetch_jobs w) in
  match new_jobs with
  | [] => w
  | _ :: _ =>
      let w1 := notify_all new_jobs w in
      if in_cleanup_window w1 then fst (cleanup_old_jobs 30 w1) else w1
  end.
Proof.
  unfold run_scraping_cycle. destruct (fetch_jobs w); reflexivity.
Qed.

Lemma run_scraping_cycle_calls w :
  telegram_calls (run_scraping_cycle w) =
  telegram_calls w ++ outcomes (filter_sde1_jobs w (fetch_jobs w)) (telegram w).
Proof.
  rewrite run_scraping_cycle_eq. cbv zeta.
  destruct (filter_sde1_jobs w (fetch_jobs w)) as [|job rest] eqn:E.
  - simpl. symmetry. apply app_nil_r.
  - destruct (in_cleanup_window _).
    + destruct (cleanup_old_jobs_frame 30 (notify_all (job :: rest) w)) as [_ ->].
      apply notify_all_calls.
    + apply notify_all_calls.
Qed.

Lemma run_scraping_cycle_sqlite_ok w :
  sqlite_ok (run_scraping_cycle w) = sqlite_ok w.
Proof.
  rewrite run_scraping_cycle_eq. cbv zeta.
  destruct (filter_sde1_jobs w (fetch_jobs w)) as [|job rest]; [reflexivity|].
  destruct (in_cleanup_window _).
  - destruct (cleanup_old_jobs_frame 30 (notify_all (job :: rest) w)) as [-> _].
    apply notify_all_sqlite_ok.
  - apply notify_all_sqlite_ok.
Qed.

Lemma filtered_job_is_notifiable w jobs job_data :
  In job_data (filter_sde1_jobs w jobs) ->
  exists job, In job jobs /\ notifiable w job = true /\ job_data = job_data_of job.
Proof.
  rewrite filter_sde1_jobs_spec. unfold spec_filter.
  rewrite in_map_iff. intros (job & <- & Hin).
  apply List.filter_In in Hin. destruct Hin as [Hin Hok]. eauto.
Qed.

Lemma notifiable_is_filtered w jobs job :
  In job jobs -> notifiable w job = true -> In (job_data_of job) (filter_sde1_jobs w jobs).
Proof.
  intros Hin Hok. rewrite filter_sde1_jobs_spec. unfold spec_filter.
  apply in_map. apply List.filter_In. auto.
Qed.

Lemma is_job_seen_same_ledger w w' id :
  same_ledger w w' -> is_job_seen w' id = is_job_seen w id.
Proof. intros [Ht Hs]. unfold is_job_seen. rewrite Ht, Hs. reflexivity. Qed.

Lemma seen_identifier_not_filtered w jobs id job_data :
  is_job_seen w id = true -> In job_data (filter_sde1_jobs w jobs) -> job_id job_data <> id.
Proof.
  intros Hseen Hin Heq.
  apply filtered_job_is_notifiable in Hin. destruct Hin as (job & _ & Hok & ->).
  unfold notifiable, novel in Hok. simpl in Heq. rewrite Heq, Hseen in Hok.
  rewrite andb_false_r in Hok. discriminate.
Qed.


(** ** Counting posts *)

Lemma posts_for_app id xs ys :
  posts_for id (xs ++ ys) = (posts_for id xs + posts_for id ys)%nat.
Proof. unfold posts_for. rewrite List.filter_app, length_app. reflexivity. Qed.

Lemma delivered_for_app id xs ys :
  delivered_for id (xs ++ ys) = (delivered_for id xs + delivered_for id ys)%nat.
Proof. unfold delivered_for. rewrite List.filter_app, length_app. reflexivity. Qed.

Lemma posts_for_outcomes id new_jobs : forall script,
  posts_for id (outcomes new_jobs script) =
  length (List.filter (fun job => String.eqb (job_id job) id) new_jobs).
Proof.
  unfold posts_for.
  induction new_jobs as [|job rest IH]; intros script; [reflexivity|].
  cbn [outcomes List.filter fst]. destruct (String.eqb (job_id job) id); simpl; rewrite IH; reflexivity.
Qed.

Lemma delivered_for_all_sent id calls :
  (forall c, In c calls -> snd c = true) -> delivered_for id calls = posts_for id calls.
Proof.
  unfold delivered_for, posts_for. intros Hall. f_equal.
  apply List.filter_ext_in. intros c Hin. rewrite (Hall c Hin). apply andb_true_r.
Qed.

Lemma count_two_of_same_id id (a b : JobData) xs ys zs :
  job_id a = id -> job_id b = id ->
  (2 <= length (List.filter (fun job => String.eqb (job_id job) id)
                  (xs ++ a :: ys ++ b :: zs)))%nat.
Proof.
  intros Ha Hb.
  rewrite List.filter_app, length_app. cbn [List.filter].
  rewrite Ha, String.eqb_refl. cbn [length].
  rewrite List.filter_app, length_app. cbn [List.filter].
  rewrite Hb, String.eqb_refl. cbn [length]. lia.
Qed.

(** ** Replays, duplicates and missing identifiers *)


(** C10. A record without [id_icims] whose title matches, whose date is
    fresh and for which the empty identifier is not reported as seen is not
    skipped: the filter puts out, at its place, a job with the identifier
    [""] and the URL [https://www.amazon.jobs/en/jobs//apply].  Once such a
    job is recorded the empty identifier is seen, and in every state where
    it is seen the filter leaves out all records without an identifier. *)
Theorem missing_identifier_shares_empty_key w :
  (forall job pre post,
     raw_id_icims job = None ->
     role_match job = true -> fresh w job = true -> is_job_seen w "" = false ->
     filter_sde1_jobs w (pre ++ job :: post) =
       filter_sde1_jobs w pre ++ job_data_of job :: filter_sde1_jobs w post
     /\ job_id (job_data_of job) = ""
     /\ url (job_data_of job) = "https://www.amazon.jobs/en/jobs//apply")
  /\ (forall job_data,
        job_id job_data = "" -> sqlite_ok w = true ->
        is_job_seen (mark_job_as_seen job_data w) "" = true)
  /\ (forall jobs,
        is_job_seen w "" = true ->
        filter_sde1_jobs w jobs = filter_sde1_jobs w (List.filter has_id jobs)).
Proof.
  split; [|split].
  - intros job pre post Hnone Hrole Hfresh Hunseen.
    rewrite filter_sde1_jobs_app, filter_sde1_jobs_cons.
    unfold notifiable, novel, job_data_of. rewrite Hnone. simpl.
    rewrite Hrole, Hfresh, Hunseen. auto.
  - intros job_data Hid Hok. rewrite <- Hid.
    apply is_job_seen_healthy; [rewrite mark_job_as_seen_sqlite_ok; exact Hok|].
    apply mark_job_as_seen_lookup. exact Hok.
  - intros jobs Hseen. rewrite !filter_sde1_jobs_spec. unfold spec_filter. f_equal.
    induction jobs as [|job jobs IH]; cbn [List.filter]; [reflexivity|].
    unfold has_id at 1. destruct (raw_id_icims job) as [id|] eqn:Hid; cbn [List.filter].
    + destruct (notifiable w job); rewrite IH; reflexivity.
    + unfold notifiable at 1, novel. rewrite Hid. simpl. rewrite Hseen.
      rewrite andb_false_r. exact IH.
Qed.

(** C9. Novelty is read from the ledger as it is when the filter runs:
    two records that are both role- and date-eligible and share an
    identifier not yet seen are both put out, and the cycle that fetched
    them posts (at least) twice for that identifier; when Telegram accepts
    every post of the cycle, both are delivered. *)
Theorem duplicate_identifier_posted_twice w pre r1 mid r2 post :
  role_match r1 = true -> fresh w r1 = true ->
  role_match r2 = true -> fresh w r2 = true ->
  dict_get (raw_id_icims r1) "" = dict_get (raw_id_icims r2) "" ->
  is_job_seen w (dict_get (raw_id_icims r1) "") = false ->
  let jobs := pre ++ r1 :: mid ++ r2 :: post in
  let id := dict_get (raw_id_icims r1) "" in
  filter_sde1_jobs w jobs =
    filter_sde1_jobs w pre ++ job_data_of r1 ::
    filter_sde1_jobs w mid ++ job_data_of r2 :: filter_sde1_jobs w post
  /\ (fetch_jobs w = jobs ->
      (posts_for id (telegram_calls w) + 2
       <= posts_for id (telegram_calls (run_scraping_cycle w)))%nat
      /\ ((forall c, In c (outcomes (filter_sde1_jobs w jobs) (telegram w)) -> snd c = true) ->
          (delivered_for id (telegram_calls w) + 2
           <= delivered_for id (telegram_calls (run_scraping_cycle w)))%nat)).
Proof.
  intros Hrole1 Hfresh1 Hrole2 Hfresh2 Hsame Hunseen jobs id.
  assert (Hn1 : notifiable w r1 = true).
  { unfold notifiable, novel. rewrite Hrole1, Hfresh1, Hunseen. reflexivity. }
  assert (Hn2 : notifiable w r2 = true).
  { unfold notifiable, novel. rewrite Hrole2, Hfresh2, <- Hsame, Hunseen. reflexivity. }
  assert (Hout : filter_sde1_jobs w jobs =
                 filter_sde1_jobs w pre ++ job_data_of r1 ::
                 filter_sde1_jobs w mid ++ job_data_of r2 :: filter_sde1_jobs w post).
  { unfold jobs.
    rewrite filter_sde1_jobs_app, filter_sde1_jobs_cons, Hn1.
    rewrite filter_sde1_jobs_app, filter_sde1_jobs_cons, Hn2. reflexivity. }
  split; [exact Hout|].
  intros Hfetch.
  assert (Hposts : (2 <= posts_for id (outcomes (filter_sde1_jobs w jobs) (telegram w)))%nat).
  { rewrite posts_for_outcomes, Hout. apply count_two_of_same_id.
    - reflexivity.
    - simpl. symmetry. exact Hsame. }
  rewrite run_scraping_cycle_calls, Hfetch. split.
  - rewrite posts_for_app. lia.
  - intros Hall. rewrite delivered_for_app, (delivered_for_all_sent _ _ Hall). lia.
Qed.

(** C3 (amended). When the post for a job fails, that turn of the loop
    leaves the table as it is and the loop goes on with the remaining jobs.
    If no post of the cycle for the job's identifier goes through, the
    cycle leaves the row of that identifier as it was, and a later filter
    pass over the same ledger puts out every record with that identifier
    that is then role- and date-eligible. *)
Theorem failed_delivery_not_recorded w :
  (forall job rest,
     fst (send_telegram_notification job w) = false ->
     seen_jobs (snd (send_telegram_notification job w)) = seen_jobs w
     /\ notify_all (job :: rest) w = notify_all rest (snd (send_telegram_notification job w)))
  /\ (forall job,
        In job (filter_sde1_jobs w (fetch_jobs w)) ->
        (forall c, In c (outcomes (filter_sde1_jobs w (fetch_jobs w)) (telegram w)) ->
                   job_id (fst c) = job_id job -> snd c = false) ->
        seen_jobs (run_scraping_cycle w) !! job_id job = seen_jobs w !! job_id job
        /\ forall w' jobs' r,
             same_ledger (run_scraping_cycle w) w' ->
             In r jobs' -> dict_get (raw_id_icims r) "" = job_id job ->
             role_match r = true -> fresh w' r = true ->
             In (job_data_of r) (filter_sde1_jobs w' jobs')).
Proof.
  split.
  - intros job rest Hfail.
    rewrite send_telegram_notification_eq in Hfail. cbn [fst] in Hfail.
    rewrite notify_all_cons, send_telegram_notification_eq. cbv zeta.
    rewrite Hfail. split; reflexivity.
  - intros job Hin Hnone.
    assert (Hunseen : is_job_seen w (job_id job) = false).
    { destruct (is_job_seen w (job_id job)) eqn:E; [|reflexivity].
      exfalso. exact (seen_identifier_not_filtered _ _ _ _ E Hin eq_refl). }
    assert (Hrow : seen_jobs (run_scraping_cycle w) !! job_id job = seen_jobs w !! job_id job).
    { rewrite run_scraping_cycle_eq. cbv zeta.
      destruct (filter_sde1_jobs w (fetch_jobs w)) as [|j rest] eqn:E; [reflexivity|].
      pose proof (notify_all_undelivered (j :: rest) (job_id job) w Hnone) as Hloop.
      destruct (in_cleanup_window _); [|exact Hloop].
      unfold is_job_seen in Hunseen. destruct (sqlite_ok w) eqn:Hok.
      - destruct (seen_jobs w !! job_id job) eqn:Hrow; [discriminate|].
        apply cleanup_old_jobs_keeps_absent. exact Hloop.
      - rewrite cleanup_old_jobs_storage_down; [exact Hloop|].
        rewrite notify_all_sqlite_ok. exact Hok. }
    split; [exact Hrow|].
    intros w' jobs' r Hsame Hr Hid Hrole Hfresh.
    apply notifiable_is_filtered; [exact Hr|].
    unfold notifiable, novel. rewrite Hrole, Hfresh, Hid.
    rewrite (is_job_seen_same_ledger _ _ _ Hsame).
    unfold is_job_seen in *. rewrite run_scraping_cycle_sqlite_ok, Hrow.
    rewrite Hunseen. reflexivity.
Qed.


(** ** Order of timestamp texts *)

Lemma append_cons c a b : String c a +:+ b = String c (a +:+ b).
Proof. reflexivity. Qed.

Lemma append_nil b : "" +:+ b = b.
Proof. reflexivity. Qed.

Lemma compare_app_same_length a : forall b x y,
  String.length a = String.length b ->
  String.compare (a +:+ x) (b +:+ y) =
  match String.compare a b with Eq => String.compare x y | c => c end.
Proof.
  induction a as [|c a IH]; intros [|d b] x y Hlen; try discriminate; [reflexivity|].
  rewrite !append_cons. cbn [String.compare].
  destruct (Ascii.compare c d); try reflexivity.
  apply IH. cbn [String.length] in Hlen. congruence.
Qed.

Lemma length_append a b :
  String.length (a +:+ b) = (String.length a + String.length b)%nat.
Proof.
  induction a as [|c a IH]; [reflexivity|].
  rewrite append_cons. cbn [String.length]. rewrite IH. reflexivity.
Qed.

Lemma append_assoc a b c : (a +:+ b) +:+ c = a +:+ (b +:+ c).
Proof.
  induction a as [|x a IH]; [reflexivity|].
  rewrite !append_cons. f_equal. exact IH.
Qed.

Lemma length_pad k : forall n, String.length (PyStr.pad k n) = k.
Proof.
  induction k as [|k IH]; intros n; [reflexivity|].
  cbn [PyStr.pad]. rewrite length_append, IH. cbn [String.length]. lia.
Qed.

Lemma digit_compare a b :
  0 <= a < 10 -> 0 <= b < 10 ->
  Ascii.compare (ascii_of_nat (48 + Z.to_nat a)) (ascii_of_nat (48 + Z.to_nat b)) = (a ?= b).
Proof.
  intros Ha Hb.
  assert (Ea : a = 0 \/ a = 1 \/ a = 2 \/ a = 3 \/ a = 4 \/
               a = 5 \/ a = 6 \/ a = 7 \/ a = 8 \/ a = 9) by lia.
  assert (Eb : b = 0 \/ b = 1 \/ b = 2 \/ b = 3 \/ b = 4 \/
               b = 5 \/ b = 6 \/ b = 7 \/ b = 8 \/ b = 9) by lia.
  repeat (destruct Ea as [->|Ea]); try rewrite Ea;
    repeat (destruct Eb as [->|Eb]); try rewrite Eb; reflexivity.
Qed.

Lemma compare_by_digits a b :
  (a ?= b) = match (a / 10 ?= b / 10) with Eq => (a mod 10 ?= b mod 10) | c => c end.
Proof.
  destruct (Z.compare_spec (a / 10) (b / 10)) as [E|E|E].
  - destruct (Z.compare_spec (a mod 10) (b mod 10)) as [F|F|F].
    + apply Z.compare_eq_iff. Z.div_mod_to_equations. lia.
    + apply Z.compare_lt_iff. Z.div_mod_to_equations. lia.
    + apply Z.compare_gt_iff. Z.div_mod_to_equations. lia.
  - apply Z.compare_lt_iff. Z.div_mod_to_equations. lia.
  - apply Z.compare_gt_iff. Z.div_mod_to_equations. lia.
Qed.

(** Zero-padded numbers of one width sort as the numbers do. *)
Lemma pad_compare k : forall a b,
  0 <= a < 10 ^ Z.of_nat k -> 0 <= b < 10 ^ Z.of_nat k ->
  String.compare (PyStr.pad k a) (PyStr.pad k b) = (a ?= b).
Proof.
  induction k as [|k IH]; intros a b Ha Hb.
  - change (10 ^ Z.of_nat 0) with 1 in *.
    assert (a = 0) by lia. assert (b = 0) by lia. subst. reflexivity.
  - cbn [PyStr.pad].
    rewrite compare_app_same_length by (rewrite !length_pad; reflexivity).
    rewrite Nat2Z.inj_succ, Z.pow_succ_r in Ha, Hb by lia.
    rewrite IH by (Z.div_mod_to_equations; lia).
    rewrite (compare_by_digits a b).
    destruct (a / 10 ?= b / 10); try reflexivity.
    cbn [String.compare]. rewrite digit_compare by (apply Z.mod_pos_bound; lia).
    destruct (a mod 10 ?= b mod 10); reflexivity.
Qed.

Lemma pad_compare_app k a b x y :
  0 <= a < 10 ^ Z.of_nat k -> 0 <= b < 10 ^ Z.of_nat k ->
  String.compare (PyStr.pad k a +:+ x) (PyStr.pad k b +:+ y) =
  match a ?= b with Eq => String.compare x y | c => c end.
Proof.
  intros Ha Hb.
  rewrite compare_app_same_length by (rewrite !length_pad; reflexivity).
  rewrite pad_compare by assumption. reflexivity.
Qed.

(** [_ord2ymd] yields a year of four digits, a month and a day. *)
Lemma ord2ymd_valid ordinal :
  1 <= ordinal <= 3652059 -> Calendar.valid_date (Calendar.ord2ymd ordinal).
Proof.
  intros Hord.
  unfold Calendar.ord2ymd, Calendar.DI400Y, Calendar.DI100Y, Calendar.DI4Y. cbv zeta.
  rewrite Z.shiftr_div_pow2 by lia. change (2 ^ 5) with 32.
  set (n0 := ordinal - 1).
  set (n400 := n0 / 146097). set (r1 := n0 mod 146097).
  set (n100 := r1 / 36524). set (r2 := r1 mod 36524).
  set (n4 := r2 / 1461). set (r3 := r2 mod 1461).
  set (n1 := r3 / 365). set (r4 := r3 mod 365).
  set (month := (r4 + 50) / 32).
  assert (H400 : n0 = 146097 * n400 + r1 /\ 0 <= r1 < 146097)
    by (unfold n400, r1; Z.div_mod_to_equations; lia).
  assert (H100 : r1 = 36524 * n100 + r2 /\ 0 <= r2 < 36524)
    by (unfold n100, r2; Z.div_mod_to_equations; lia).
  assert (H4 : r2 = 1461 * n4 + r3 /\ 0 <= r3 < 1461)
    by (unfold n4, r3; Z.div_mod_to_equations; lia).
  assert (H1 : r3 = 365 * n1 + r4 /\ 0 <= r4 < 365)
    by (unfold n1, r4; Z.div_mod_to_equations; lia).
  assert (Hm : 32 * month <= r4 + 50 < 32 * month + 32)
    by (unfold month; Z.div_mod_to_equations; lia).
  assert (Hn0 : 0 <= n0 <= 3652058) by (unfold n0; lia).
  clearbody n0 n400 r1 n100 r2 n4 r3 n1 r4 month.
  destruct ((n1 =? 4) || (n100 =? 4)) eqn:Hlast.
  - unfold Calendar.valid_date. apply orb_true_iff in Hlast.
    rewrite !Z.eqb_eq in Hlast. lia.
  - apply orb_false_iff in Hlast. rewrite !Z.eqb_neq in Hlast.
    assert (Hyear : 1 <= n400 * 400 + 1 + n100 * 100 + n4 * 4 + n1 <= 9999) by lia.
    assert (Emonth : month = 1 \/ month = 2 \/ month = 3 \/ month = 4 \/
                     month = 5 \/ month = 6 \/ month = 7 \/ month = 8 \/
                     month = 9 \/ month = 10 \/ month = 11 \/ month = 12) by lia.
    destruct ((n1 =? 3) && (negb (n4 =? 24) || (n100 =? 3)));
      repeat (destruct Emonth as [->|Emonth]); try rewrite Emonth;
      simpl;
      match goal with |- context [ ?a <? ?b ] => destruct (Z.ltb_spec a b) end;
      simpl; lia.
Qed.

Lemma date_of_valid t : Calendar.in_range t -> Calendar.valid_date (Calendar.date_of t).
Proof.
  intros Hrange. apply ord2ymd_valid.
  unfold Calendar.in_range in Hrange.
  change (Calendar.ymd2ord 10000 1 1) with 3652060 in Hrange.
  unfold Calendar.us_per_day, Calendar.us_per_second in *.
  Z.div_mod_to_equations. lia.
Qed.

(** Two date texts, whatever follows them, compare as the dates do. *)
Lemma render_date_compare a b x y :
  Calendar.valid_date a -> Calendar.valid_date b ->
  String.compare (Calendar.render_date a +:+ x) (Calendar.render_date b +:+ y) =
  if Calendar.date_ltb a b then Lt
  else if Calendar.date_ltb b a then Gt
  else String.compare x y.
Proof.
  destruct a as [[y1 m1] d1], b as [[y2 m2] d2]. intros Ha Hb.
  unfold Calendar.valid_date in Ha, Hb. unfold Calendar.render_date.
  rewrite !append_assoc.
  rewrite pad_compare_app by (change (10 ^ Z.of_nat 4) with 10000; lia).
  rewrite (compare_app_same_length "-" "-") by reflexivity.
  change (String.compare "-" "-") with Eq. cbv iota.
  rewrite pad_compare_app by (change (10 ^ Z.of_nat 2) with 100; lia).
  rewrite (compare_app_same_length "-" "-") by reflexivity.
  change (String.compare "-" "-") with Eq. cbv iota.
  rewrite pad_compare_app by (change (10 ^ Z.of_nat 2) with 100; lia).
  unfold Calendar.date_ltb.
  destruct (Z.compare_spec y1 y2), (Z.compare_spec m1 m2), (Z.compare_spec d1 d2);
    repeat match goal with
           | |- context [ ?p <? ?q ] => destruct (Z.ltb_spec p q); try lia
           | |- context [ ?p =? ?q ] => destruct (Z.eqb_spec p q); try lia
           end; reflexivity.
Qed.

Lemma date_ltb_asym a b :
  Calendar.date_ltb a b = true -> Calendar.date_ltb b a = false.
Proof.
  destruct a as [[y1 m1] d1], b as [[y2 m2] d2]. unfold Calendar.date_ltb.
  repeat match goal with
         | |- context [ ?p <? ?q ] => destruct (Z.ltb_spec p q)
         | |- context [ ?p =? ?q ] => destruct (Z.eqb_spec p q)
         end; cbn [orb andb]; intros; try reflexivity; try discriminate; lia.
Qed.

(** The DELETE compares texts: a row goes exactly when its date (UTC) is
    not after the date of the cutoff (local), whatever the times of day. *)
Lemma created_before_by_date cutoff row :
  Calendar.in_range cutoff -> Calendar.in_range (created_at row) ->
  created_before cutoff row =
  negb (Calendar.date_ltb (Calendar.date_of cutoff) (Calendar.date_of (created_at row))).
Proof.
  intros Hcut Hrow.
  unfold created_before, String.ltb, Calendar.sqlite_timestamp, Calendar.isoformat,
    Calendar.date_text.
  rewrite render_date_compare by (apply date_of_valid; assumption).
  destruct (Calendar.date_ltb (Calendar.date_of (created_at row)) (Calendar.date_of cutoff))
    eqn:Hlt.
  - rewrite (date_ltb_asym _ _ Hlt). reflexivity.
  - destruct (Calendar.date_ltb (Calendar.date_of cutoff) (Calendar.date_of (created_at row)));
      [reflexivity|].
    rewrite (compare_app_same_length " " "T") by reflexivity. reflexivity.
Qed.

Lemma in_rangeb_in_range t : Calendar.in_rangeb t = true -> Calendar.in_range t.
Proof.
  unfold Calendar.in_rangeb, Calendar.in_range. intros H.
  apply andb_true_iff in H. destruct H as [H1 H2].
  apply Z.leb_le in H1. apply Z.ltb_lt in H2. split; assumption.
Qed.

Lemma rows_in_range_lookup w id row :
  rows_in_range w = true -> seen_jobs w !! id = Some row ->
  Calendar.in_range (created_at row).
Proof.
  unfold rows_in_range. intros Hall Hrow.
  apply in_rangeb_in_range.
  rewrite forallb_forall in Hall.
  apply (Hall (id, row)). apply list_elem_of_In, elem_of_map_to_list. exact Hrow.
Qed.

(** ** The ledger: sweep and re-recording *)

(** C6 (amended). When the storage statements execute and the cutoff, local
    now minus the threshold, is a datetime: the sweep deletes every row
    recorded on a calendar day before the day of the cutoff, leaves every
    row recorded on a later day as it was, never adds or changes a row,
    and returns nothing; the number of rows deleted goes to the log when
    it is positive. *)
Theorem sweep_deletes_earlier_days days w :
  sqlite_ok w = true ->
  Calendar.in_rangeb (now w - days * Calendar.us_per_day) = true ->
  rows_in_range w = true ->
  (forall id row,
     seen_jobs w !! id = Some row ->
     Calendar.date_ltb (Calendar.date_of (created_at row))
       (Calendar.date_of (now w - days * Calendar.us_per_day)) = true ->
     seen_jobs (fst (cleanup_old_jobs days w)) !! id = None)
  /\ (forall id row,
        seen_jobs w !! id = Some row ->
        Calendar.date_ltb (Calendar.date_of (now w - days * Calendar.us_per_day))
          (Calendar.date_of (created_at row)) = true ->
        seen_jobs (fst (cleanup_old_jobs days w)) !! id = Some row)
  /\ (forall id row,
        seen_jobs (fst (cleanup_old_jobs days w)) !! id = Some row ->
        seen_jobs w !! id = Some row)
  /\ (size (seen_jobs (fst (cleanup_old_jobs days w))) <= size (seen_jobs w))%nat
  /\ snd (cleanup_old_jobs days w) =
     (let deleted_count :=
        (size (seen_jobs w) - size (seen_jobs (fst (cleanup_old_jobs days w))))%nat in
      if Nat.ltb 0 deleted_count then Some deleted_count else None).
Proof.
  intros Hok Hcut Hrows.
  pose proof (in_rangeb_in_range _ Hcut) as Hcutoff.
  unfold cleanup_old_jobs. rewrite Hok, Hcut. cbn [fst snd with_seen_jobs seen_jobs].
  repeat split.
  - intros id row Hrow Hearlier.
    apply map_lookup_filter_None_2. right. intros row' Hrow'.
    assert (row' = row) as -> by congruence. cbn [snd].
    rewrite created_before_by_date
      by (try exact Hcutoff; eapply rows_in_range_lookup; eassumption).
    rewrite (date_ltb_asym _ _ Hearlier). discriminate.
  - intros id row Hrow Hlater.
    apply map_lookup_filter_Some_2; [exact Hrow|]. cbn [snd].
    rewrite created_before_by_date
      by (try exact Hcutoff; eapply rows_in_range_lookup; eassumption).
    rewrite Hlater. reflexivity.
  - intros id row. apply map_lookup_filter_Some_1_1.
  - apply map_size_filter.
Qed.

(** C7 (amended). Recording an identifier that is already in the ledger
    replaces its row by the fields of the job now recorded and a new
    recorded-at timestamp; no second row appears and the other rows are
    left as they were.  A post to Telegram and the creation of the table
    leave the ledger as it is, and the sweep only deletes. *)
Theorem rerecording_replaces_row w job :
  sqlite_ok w = true ->
  seen_jobs (mark_job_as_seen job w) !! job_id job =
    Some {| seen_title := title job; seen_location := location job;
            seen_posted_date := posted_date job; created_at := current_timestamp w |}
  /\ (forall id, id <> job_id job ->
        seen_jobs (mark_job_as_seen job w) !! id = seen_jobs w !! id)
  /\ (is_Some (seen_jobs w !! job_id job) ->
        size (seen_jobs (mark_job_as_seen job w)) = size (seen_jobs w))
  /\ seen_jobs (snd (send_telegram_notification job w)) = seen_jobs w
  /\ init_database w = Some w
  /\ (forall days id row,
        seen_jobs (fst (cleanup_old_jobs days w)) !! id = Some row ->
        seen_jobs w !! id = Some row).
Proof.
  intros Hok. unfold mark_job_as_seen, init_database. rewrite Hok.
  cbn [with_seen_jobs seen_jobs]. repeat split.
  - apply lookup_insert_eq.
  - intros id Hne. apply lookup_insert_ne. congruence.
  - intros Hrow. apply map_size_insert_Some. exact Hrow.
  - rewrite send_telegram_notification_eq. reflexivity.
  - intros days id row. apply cleanup_old_jobs_only_deletes.
Qed.


(** * Further properties of the code *)

(** ** Storage failures *)

(** X1. When the SQLite statements fail, the lookup of [is_job_seen]
    answers [False] for every identifier and the filter puts out every
    record that is role- and date-eligible, whether its identifier is in the
    table or not. *)
Theorem filter_fails_open w jobs :
  sqlite_ok w = false ->
  filter_sde1_jobs w jobs =
  map job_data_of (List.filter (fun job => role_match job && fresh w job) jobs).
Proof.
  intros Hdown. rewrite filter_sde1_jobs_spec. unfold spec_filter. f_equal.
  apply List.filter_ext. intros job. unfold notifiable, novel.
  rewrite is_job_seen_storage_down by exact Hdown. apply andb_true_r.
Qed.

(** X2. When the SQLite statements fail, a whole cycle leaves the table as
    it is, also inside the window of the sweep: the jobs it posts are not
    recorded. *)
Theorem cycle_with_storage_down_keeps_table w :
  sqlite_ok w = false ->
  seen_jobs (run_scraping_cycle w) = seen_jobs w.
Proof.
  intros Hdown. rewrite run_scraping_cycle_eq. cbv zeta.
  destruct (filter_sde1_jobs w (fetch_jobs w)) as [|job rest]; [reflexivity|].
  destruct (in_cleanup_window _).
  - rewrite cleanup_old_jobs_storage_down
      by (rewrite notify_all_sqlite_ok; exact Hdown).
    apply notify_all_storage_down. exact Hdown.
  - apply notify_all_storage_down. exact Hdown.
Qed.

(** ** Shape of a cycle *)

(** X3. When no record passes the filter (an empty or missing job list, or
    nothing new), the cycle returns at once: nothing is posted, the table
    is left alone and the sweep is not run, even inside its window. *)
Theorem cycle_without_new_jobs_is_noop w :
  filter_sde1_jobs w (fetch_jobs w) = [] ->
  run_scraping_cycle w = w.
Proof.
  intros Hnone. rewrite run_scraping_cycle_eq. cbv zeta. rewrite Hnone. reflexivity.
Qed.

Lemma outcomes_jobs new_jobs : forall script,
  map fst (outcomes new_jobs script) = new_jobs.
Proof.
  induction new_jobs as [|job rest IH]; intros script; [reflexivity|].
  cbn [outcomes map fst]. rewrite IH. reflexivity.
Qed.

Lemma outcomes_results new_jobs : forall script,
  map snd (outcomes new_jobs script) =
  firstn (length new_jobs) script ++
  repeat false (length new_jobs - length script).
Proof.
  induction new_jobs as [|job rest IH]; intros script; [reflexivity|].
  cbn [outcomes map snd]. rewrite IH.
  destruct script as [|b script]; cbn [hd tl length firstn].
  - rewrite firstn_nil, Nat.sub_0_r. reflexivity.
  - reflexivity.
Qed.

(** X4. A cycle posts once for each job of the filter result, in the order
    of the result and without retry: the posts it adds to the trace are
    those jobs, and their outcomes are the next outcomes of Telegram, a
    failure standing for each one that is missing. *)
Theorem cycle_posts_each_new_job_once w :
  exists posts,
    telegram_calls (run_scraping_cycle w) = telegram_calls w ++ posts
    /\ map fst posts = filter_sde1_jobs w (fetch_jobs w)
    /\ map snd posts =
       firstn (length (filter_sde1_jobs w (fetch_jobs w))) (telegram w) ++
       repeat false (length (filter_sde1_jobs w (fetch_jobs w)) - length (telegram w)).
Proof.
  exists (outcomes (filter_sde1_jobs w (fetch_jobs w)) (telegram w)).
  split; [apply run_scraping_cycle_calls|].
  split; [apply outcomes_jobs | apply outcomes_results].
Qed.


(** ** Rate limiting and the clock *)

Lemma mark_job_as_seen_clock job w :
  utc_now (mark_job_as_seen job w) = utc_now w
  /\ tz_offset (mark_job_as_seen job w) = tz_offset w.
Proof. unfold mark_job_as_seen. destruct (sqlite_ok w); split; reflexivity. Qed.

Lemma cleanup_old_jobs_clock days w :
  utc_now (fst (cleanup_old_jobs days w)) = utc_now w
  /\ tz_offset (fst (cleanup_old_jobs days w)) = tz_offset w.
Proof.
  unfold cleanup_old_jobs. destruct (sqlite_ok w); [|split; reflexivity].
  destruct (Calendar.in_rangeb _); split; reflexivity.
Qed.

Lemma notify_all_clock new_jobs : forall w,
  utc_now (notify_all new_jobs w) =
  utc_now w + Z.of_nat (deliveries (outcomes new_jobs (telegram w))) * Calendar.us_per_second
  /\ tz_offset (notify_all new_jobs w) = tz_offset w.
Proof.
  unfold deliveries.
  induction new_jobs as [|job rest IH]; intros w.
  - cbn [notify_all outcomes List.filter length]. split; [lia|reflexivity].
  - rewrite notify_all_cons. cbv zeta. cbn [outcomes List.filter snd].
    destruct (hd false (telegram w)) eqn:Hd.
    + destruct (IH (sleep 1 (mark_job_as_seen job
                   (with_telegram (tl (telegram w))
                      (telegram_calls w ++ [(job, true)]) w)))) as [Hclock Htz].
      rewrite Hclock, Htz. cbn [sleep utc_now tz_offset telegram].
      rewrite mark_job_as_seen_telegram.
      destruct (mark_job_as_seen_clock job
                  (with_telegram (tl (telegram w))
                     (telegram_calls w ++ [(job, true)]) w)) as [-> ->].
      cbn [with_telegram utc_now tz_offset telegram length].
      split; [lia|reflexivity].
    + destruct (IH (with_telegram (tl (telegram w))
                      (telegram_calls w ++ [(job, false)]) w)) as [Hclock Htz].
      rewrite Hclock, Htz. cbn [with_telegram utc_now tz_offset telegram].
      split; reflexivity.
Qed.

Lemma deliveries_app xs ys :
  deliveries (xs ++ ys) = (deliveries xs + deliveries ys)%nat.
Proof. unfold deliveries. rewrite List.filter_app, length_app. reflexivity. Qed.

(** X5. A cycle sleeps one second after each post that went through and
    not after a failed one: by these sleeps its clock has advanced, when it
    ends, by as many seconds as it has delivered posts. *)
Theorem cycle_sleeps_once_per_delivery w :
  utc_now (run_scraping_cycle w) =
  utc_now w +
  (Z.of_nat (deliveries (telegram_calls (run_scraping_cycle w)))
   - Z.of_nat (deliveries (telegram_calls w))) * Calendar.us_per_second.
Proof.
  rewrite run_scraping_cycle_calls, deliveries_app.
  rewrite run_scraping_cycle_eq. cbv zeta.
  destruct (filter_sde1_jobs w (fetch_jobs w)) as [|job rest].
  - cbn [outcomes deliveries List.filter length]. lia.
  - assert (Hloop := proj1 (notify_all_clock (job :: rest) w)).
    destruct (in_cleanup_window _).
    + destruct (cleanup_old_jobs_clock 30 (notify_all (job :: rest) w)) as [-> _].
      rewrite Hloop. lia.
    + rewrite Hloop. lia.
Qed.

(** ** What the loop records *)

(** X6. With working storage, the identifiers in the table when the loop
    of the cycle ends are those that were there before and those of the
    jobs whose post went through, and no others. *)
Theorem loop_records_delivered_jobs new_jobs w id :
  sqlite_ok w = true ->
  (is_Some (seen_jobs (notify_all new_jobs w) !! id) <->
   is_Some (seen_jobs w !! id)
   \/ exists job, In (job, true) (outcomes new_jobs (telegram w)) /\ job_id job = id).
Proof.
  intros Hok. split.
  - revert w Hok. induction new_jobs as [|job rest IH]; intros w Hok Hseen.
    + left. exact Hseen.
    + rewrite notify_all_cons in Hseen. cbv zeta in Hseen. cbn [outcomes].
      destruct (hd false (telegram w)) eqn:Hd.
      * apply IH in Hseen;
          [|cbn [sleep sqlite_ok]; rewrite mark_job_as_seen_sqlite_ok; exact Hok].
        cbn [sleep telegram seen_jobs] in Hseen.
        rewrite mark_job_as_seen_telegram in Hseen.
        cbn [with_telegram telegram] in Hseen.
        destruct Hseen as [Hrow|(j & Hin & Hid)].
        -- unfold mark_job_as_seen in Hrow. cbn [with_telegram sqlite_ok] in Hrow.
           rewrite Hok in Hrow. cbn [with_seen_jobs with_telegram seen_jobs] in Hrow.
           destruct (decide (job_id job = id)) as [Heq|Hne].
           ++ right. exists job. split; [left; reflexivity | exact Heq].
           ++ left. rewrite lookup_insert_ne in Hrow by exact Hne. exact Hrow.
        -- right. exists j. split; [right; exact Hin | exact Hid].
      * apply IH in Hseen; [|exact Hok].
        cbn [with_telegram telegram seen_jobs] in Hseen.
        destruct Hseen as [Hrow|(j & Hin & Hid)]; [left; exact Hrow|].
        right. exists j. split; [right; exact Hin | exact Hid].
  - intros [Hrow|(job & Hin & <-)].
    + apply notify_all_keeps_keys. exact Hrow.
    + apply notify_all_records_delivered; assumption.
Qed.

(** ** The sweep *)

(** X7. When the storage statements execute and cutoff and rows hold
    representable datetimes, a row is still in the table after the sweep
    exactly when it was there before, unchanged, and was recorded (UTC) on
    a calendar day after the day of the cutoff (local now minus the
    threshold): every row of that day itself and of earlier days is
    deleted, whatever the times of day. *)
Theorem sweep_keeps_later_days_only days w id row :
  sqlite_ok w = true ->
  Calendar.in_rangeb (now w - days * Calendar.us_per_day) = true ->
  rows_in_range w = true ->
  (seen_jobs (fst (cleanup_old_jobs days w)) !! id = Some row <->
   seen_jobs w !! id = Some row
   /\ Calendar.date_ltb (Calendar.date_of (now w - days * Calendar.us_per_day))
        (Calendar.date_of (created_at row)) = true).
Proof.
  intros Hok Hcut Hrows.
  pose proof (in_rangeb_in_range _ Hcut) as Hcutoff.
  unfold cleanup_old_jobs. rewrite Hok, Hcut. cbn [fst with_seen_jobs seen_jobs].
  rewrite map_lookup_filter_Some. cbn [snd].
  split; intros [Hrow Hkeep]; (split; [exact Hrow|]).
  - rewrite created_before_by_date in Hkeep
      by (try exact Hcutoff; eapply rows_in_range_lookup; eassumption).
    apply negb_false_iff in Hkeep. exact Hkeep.
  - rewrite created_before_by_date
      by (try exact Hcutoff; eapply rows_in_range_lookup; eassumption).
    rewrite Hkeep. reflexivity.
Qed.

(** X8. The sweep is idempotent: run again on the state it returned, at the
    same clock reading, it deletes nothing, changes nothing and writes no
    count to the log. *)
Theorem sweep_twice_is_sweep_once days w :
  cleanup_old_jobs days (fst (cleanup_old_jobs days w)) =
  (fst (cleanup_old_jobs days w), None).
Proof.
  unfold cleanup_old_jobs at 2 3.
  destruct (sqlite_ok w) eqn:Hok.
  - destruct (Calendar.in_rangeb (now w - days * Calendar.us_per_day)) eqn:Hcut.
    + cbn [fst]. unfold cleanup_old_jobs. cbn [with_seen_jobs sqlite_ok seen_jobs].
      rewrite Hok.
      change (now (with_seen_jobs ?t w)) with (now w). rewrite Hcut.
      rewrite map_filter_id
        by (intros i x Hx; apply map_lookup_filter_Some in Hx; apply Hx).
      rewrite Nat.sub_diag. reflexivity.
    + cbn [fst]. unfold cleanup_old_jobs. rewrite Hok, Hcut. reflexivity.
  - cbn [fst]. unfold cleanup_old_jobs. rewrite Hok. reflexivity.
Qed.


Lemma in_range_in_rangeb t : Calendar.in_range t -> Calendar.in_rangeb t = true.
Proof.
  unfold Calendar.in_rangeb, Calendar.in_range. intros [H1 H2].
  apply andb_true_iff. split; [apply Z.leb_le | apply Z.ltb_lt]; assumption.
Qed.

Lemma rows_in_range_iff w :
  rows_in_range w = true <->
  forall id row, seen_jobs w !! id = Some row -> Calendar.in_range (created_at row).
Proof.
  split.
  - intros Hall id row. apply rows_in_range_lookup. exact Hall.
  - intros Hall. unfold rows_in_range. apply forallb_forall. intros [id row] Hin.
    apply in_range_in_rangeb. apply (Hall id).
    apply elem_of_map_to_list, list_elem_of_In. exact Hin.
Qed.

Lemma current_timestamp_in_range w :
  Calendar.in_range (utc_now w) -> Calendar.in_range (current_timestamp w).
Proof.
  unfold Calendar.in_range, current_timestamp, Calendar.us_per_second.
  intros Hclock. Z.div_mod_to_equations. lia.
Qed.

Lemma mark_job_as_seen_rows_in_range job w :
  rows_in_range w = true -> Calendar.in_range (utc_now w) ->
  rows_in_range (mark_job_as_seen job w) = true.
Proof.
  intros Hrows Hclock. apply rows_in_range_iff. intros id row.
  unfold mark_job_as_seen. destruct (sqlite_ok w).
  - cbn [with_seen_jobs seen_jobs]. intros Hrow.
    apply lookup_insert_Some in Hrow. destruct Hrow as [[_ <-]|[_ Hrow]].
    + apply current_timestamp_in_range. exact Hclock.
    + eapply rows_in_range_lookup; eassumption.
  - apply rows_in_range_lookup. exact Hrows.
Qed.

Lemma notify_all_rows_in_range new_jobs : forall w,
  rows_in_range w = true ->
  Calendar.in_range (utc_now w) ->
  Calendar.in_range (utc_now w + Z.of_nat (length new_jobs) * Calendar.us_per_second) ->
  rows_in_range (notify_all new_jobs w) = true.
Proof.
  induction new_jobs as [|job rest IH]; intros w Hrows Hclock Hend; [exact Hrows|].
  rewrite notify_all_cons. cbv zeta.
  assert (Hstep : Calendar.in_range (utc_now w + 1 * Calendar.us_per_second)
                  /\ Calendar.in_range
                       (utc_now w + Z.of_nat (length rest) * Calendar.us_per_second)
                  /\ utc_now w + 1 * Calendar.us_per_second
                     + Z.of_nat (length rest) * Calendar.us_per_second
                     = utc_now w + Z.of_nat (length (job :: rest)) * Calendar.us_per_second).
  { cbn [length] in *. unfold Calendar.in_range, Calendar.us_per_second in *. lia. }
  destruct Hstep as (Hone & Hrest & Hsum).
  destruct (hd false (telegram w)).
  - apply IH.
    + apply (mark_job_as_seen_rows_in_range job
               (with_telegram (tl (telegram w)) (telegram_calls w ++ [(job, true)]) w));
        assumption.
    + cbn [sleep utc_now].
      destruct (mark_job_as_seen_clock job
                  (with_telegram (tl (telegram w)) (telegram_calls w ++ [(job, true)]) w))
        as [-> _]. exact Hone.
    + cbn [sleep utc_now].
      destruct (mark_job_as_seen_clock job
                  (with_telegram (tl (telegram w)) (telegram_calls w ++ [(job, true)]) w))
        as [-> _]. cbn [with_telegram utc_now]. rewrite Hsum. exact Hend.
  - apply IH; assumption.
Qed.

(** X9. The ledger keeps its timestamps representable: when every row
    holds a datetime and the clock stays within the range of [datetime]
    during the cycle, every row of the table after the cycle holds a
    datetime as well. *)
Theorem cycle_keeps_rows_in_range w :
  rows_in_range w = true ->
  Calendar.in_range (utc_now w) ->
  Calendar.in_range
    (utc_now w + Z.of_nat (length (filter_sde1_jobs w (fetch_jobs w)))
                 * Calendar.us_per_second) ->
  rows_in_range (run_scraping_cycle w) = true.
Proof.
  intros Hrows Hclock Hend. rewrite run_scraping_cycle_eq. cbv zeta.
  destruct (filter_sde1_jobs w (fetch_jobs w)) as [|job rest] eqn:E; [exact Hrows|].
  pose proof (notify_all_rows_in_range (job :: rest) w Hrows Hclock Hend) as Hloop.
  destruct (in_cleanup_window _); [|exact Hloop].
  apply rows_in_range_iff. intros id row Hrow.
  apply cleanup_old_jobs_only_deletes in Hrow.
  eapply rows_in_range_lookup; eassumption.
Qed.

(** The window of the sweep is the first quarter of an hour of the local
    day. *)
Lemma in_cleanup_window_time_of_day w :
  in_cleanup_window w =
  (now w mod Calendar.us_per_day <? 15 * 60 * Calendar.us_per_second).
Proof.
  unfold in_cleanup_window, Calendar.hour, Calendar.minute,
    Calendar.us_per_day, Calendar.us_per_second.
  destruct (Z.ltb_spec (now w mod (86400 * 1000000)) (15 * 60 * 1000000)) as [Hin|Hout].
  - apply andb_true_iff. split; [apply Z.eqb_eq | apply Z.ltb_lt];
      Z.div_mod_to_equations; lia.
  - apply andb_false_iff.
    destruct (Z.eqb_spec ((now w / (3600 * 1000000)) mod 24) 0) as [Hhour|Hhour];
      [right|left; reflexivity].
    apply Z.ltb_ge. Z.div_mod_to_equations. lia.
Qed.



(** ** Dates *)

Lemma parse_posted_date_none formats text :
  (forall fmt, In fmt formats -> strptime text fmt = None) ->
  parse_posted_date formats text = None.
Proof.
  induction formats as [|fmt rest IH]; intros Hnone; [reflexivity|].
  cbn [parse_posted_date]. rewrite (Hnone fmt) by (left; reflexivity).
  apply IH. intros f Hf. apply Hnone. right. exact Hf.
Qed.

Lemma parse_posted_date_first pre : forall fmt rest text posted,
  (forall f, In f pre -> strptime text f = None) ->
  strptime text fmt = Some posted ->
  parse_posted_date (pre ++ fmt :: rest) text = Some posted.
Proof.
  induction pre as [|f pre IH]; intros fmt rest text posted Hnone Hfmt.
  - cbn [app parse_posted_date]. rewrite Hfmt. reflexivity.
  - cbn [app parse_posted_date]. rewrite (Hnone f) by (left; reflexivity).
    apply IH; [|exact Hfmt]. intros g Hg. apply Hnone. right. exact Hg.
Qed.

Lemma not_notifiable_is_skipped w job pre post :
  notifiable w job = false ->
  filter_sde1_jobs w (pre ++ job :: post) = filter_sde1_jobs w (pre ++ post).
Proof.
  intros Hno.
  rewrite !filter_sde1_jobs_app, filter_sde1_jobs_cons, Hno. reflexivity.
Qed.

(** X11. A record whose posted date none of the four formats accepts is
    not fresh and is left out by the filter, whatever its title and
    identifier; the other records of the list are treated as without it. *)
Theorem unparsable_date_is_left_out w job pre post :
  (forall fmt, In fmt date_formats ->
               strptime (dict_get (raw_posted_date job) "") fmt = None) ->
  is_recent_job w (dict_get (raw_posted_date job) "") = false
  /\ filter_sde1_jobs w (pre ++ job :: post) = filter_sde1_jobs w (pre ++ post).
Proof.
  intros Hnone.
  assert (Hstale : is_recent_job w (dict_get (raw_posted_date job) "") = false).
  { unfold is_recent_job. rewrite parse_posted_date_none by exact Hnone. reflexivity. }
  split; [exact Hstale|].
  apply not_notifiable_is_skipped. unfold notifiable, fresh.
  rewrite Hstale, andb_false_r. reflexivity.
Qed.

(** X12. The formats are tried in the order of the list and the first one
    that accepts the text decides: freshness is computed from the datetime
    it yields, and the formats after it are not consulted. *)
Theorem first_accepting_format_decides w pre fmt rest text posted :
  date_formats = pre ++ fmt :: rest ->
  (forall f, In f pre -> strptime text f = None) ->
  strptime text fmt = Some posted ->
  is_recent_job w text = (now w - posted <=? 24 * 60 * 60 * Calendar.us_per_second).
Proof.
  intros Hsplit Hnone Hfmt. unfold is_recent_job. rewrite Hsplit.
  rewrite (parse_posted_date_first pre fmt rest text posted Hnone Hfmt). reflexivity.
Qed.

Lemma is_recent_job_earlier w w' text :
  now w <= now w' -> is_recent_job w' text = true -> is_recent_job w text = true.
Proof.
  unfold is_recent_job. intros Hle.
  destruct (parse_posted_date date_formats text) as [posted|]; [|discriminate].
  cbv zeta. rewrite !Z.leb_le. lia.
Qed.

(** X13. Freshness only expires: a date that is not fresh at one reading of
    the clock is not fresh at any later reading. *)
Theorem stale_stays_stale w w' text :
  now w <= now w' -> is_recent_job w text = false -> is_recent_job w' text = false.
Proof.
  intros Hle Hstale. destruct (is_recent_job w' text) eqn:Hlater; [|reflexivity].
  rewrite (is_recent_job_earlier w w' text Hle Hlater) in Hstale. discriminate.
Qed.

(** ** Titles *)

Lemma lower_append a b : PyStr.lower (a +:+ b) = PyStr.lower a +:+ PyStr.lower b.
Proof.
  induction a as [|c a IH]; [reflexivity|].
  rewrite append_cons. cbn [PyStr.lower]. rewrite append_cons, IH. reflexivity.
Qed.

Lemma prefix_append k : forall t b,
  String.prefix k t = true -> String.prefix k (t +:+ b) = true.
Proof.
  induction k as [|c k IH]; intros t b Hpre; [destruct (t +:+ b); reflexivity|].
  destruct t as [|d t]; [discriminate|].
  rewrite append_cons. cbn [String.prefix] in *.
  destruct (ascii_dec c d); [|discriminate]. apply IH. exact Hpre.
Qed.

Lemma contains_append_r k t b :
  PyStr.contains k t = true -> PyStr.contains k (t +:+ b) = true.
Proof.
  induction t as [|c t IH]; intros Hin.
  - cbn [PyStr.contains] in Hin. rewrite orb_false_r in Hin.
    destruct k as [|d k]; [|discriminate].
    rewrite append_nil. destruct b; reflexivity.
  - rewrite append_cons. cbn [PyStr.contains] in *.
    apply orb_true_iff in Hin. apply orb_true_iff. destruct Hin as [Hpre|Hin].
    + left. apply (prefix_append k (String c t) b) in Hpre.
      rewrite append_cons in Hpre. exact Hpre.
    + right. apply IH. exact Hin.
Qed.

Lemma contains_append_l k a t :
  PyStr.contains k t = true -> PyStr.contains k (a +:+ t) = true.
Proof.
  intros Hin. induction a as [|c a IH]; [exact Hin|].
  rewrite append_cons. cbn [PyStr.contains]. rewrite IH. apply orb_true_r.
Qed.

(** X14. The role check looks for the keywords anywhere in the lowered
    title: when a title passes, so does every title that contains it, with
    any text before and after; it cannot tell a level I title from a longer
    one such as level II or III. *)
Theorem role_match_survives_embedding job job' before after :
  dict_get (raw_title job') "" = before +:+ dict_get (raw_title job) "" +:+ after ->
  role_match job = true -> role_match job' = true.
Proof.
  intros Htitle. rewrite !role_match_keywords. unfold PyStr.any_in.
  rewrite Htitle, !lower_append, !existsb_exists.
  intros (k & Hk & Hin). exists k. split; [exact Hk|].
  apply contains_append_l, contains_append_r. exact Hin.
Qed.

(** X15. A record without a title is never put out: the empty default
    matches no keyword, whatever the date and the identifier of the
    record. *)
Theorem untitled_record_is_left_out w job pre post :
  raw_title job = None ->
  filter_sde1_jobs w (pre ++ job :: post) = filter_sde1_jobs w (pre ++ post).
Proof.
  intros Hnone. apply not_notifiable_is_skipped.
  unfold notifiable, role_match. rewrite Hnone. reflexivity.
Qed.

(** ** Passes of the filter within one cycle *)

Lemma is_job_seen_after_loop new_jobs w id :
  is_job_seen w id = true -> is_job_seen (notify_all new_jobs w) id = true.
Proof.
  unfold is_job_seen. rewrite notify_all_sqlite_ok.
  destruct (sqlite_ok w); [|discriminate].
  destruct (seen_jobs w !! id) as [row|] eqn:Hrow; [|discriminate].
  intros _.
  destruct (notify_all_keeps_keys new_jobs id w) as [row' ->]; [eauto|reflexivity].
Qed.

Lemma notifiable_after_loop new_jobs w job :
  notifiable (notify_all new_jobs w) job = true -> notifiable w job = true.
Proof.
  unfold notifiable, fresh, novel. intros H.
  apply andb_true_iff in H. destruct H as [H Hnovel].
  apply andb_true_iff in H. destruct H as [Hrole Hfresh].
  rewrite Hrole. cbn [andb]. apply andb_true_iff. split.
  - apply (is_recent_job_earlier w (notify_all new_jobs w)); [|exact Hfresh].
    unfold now. destruct (notify_all_clock new_jobs w) as [-> ->].
    unfold Calendar.us_per_second. lia.
  - destruct (is_job_seen w (dict_get (raw_id_icims job) "")) eqn:Hseen; [|reflexivity].
    rewrite (is_job_seen_after_loop new_jobs w _ Hseen) in Hnovel. discriminate.
Qed.

Lemma selection_sublist {A B} (f : A -> B) (P Q : A -> bool) l :
  (forall x, P x = true -> Q x = true) ->
  sublist (map f (List.filter P l)) (map f (List.filter Q l)).
Proof.
  intros Himp. induction l as [|x l IH]; cbn [List.filter map]; [constructor|].
  destruct (P x) eqn:HP.
  - rewrite (Himp x HP). cbn [map]. apply sublist_skip. exact IH.
  - destruct (Q x); cbn [map]; [apply sublist_cons|]; exact IH.
Qed.

(** X16. Posting and recording never make a record eligible: whatever jobs
    the loop of the cycle has handled, the filter run on the state it
    leaves puts out a sub-sequence of what it put out before, for every raw
    list. *)
Theorem filter_after_loop_is_sublist new_jobs w jobs :
  sublist (filter_sde1_jobs (notify_all new_jobs w) jobs) (filter_sde1_jobs w jobs).
Proof.
  rewrite !filter_sde1_jobs_spec. unfold spec_filter.
  apply selection_sublist. intros job. apply notifiable_after_loop.
Qed.

(** ** Start of the process *)

Lemma test_setup_eq w :
  fst (test_setup w) = hd false (telegram w)
  /\ seen_jobs (snd (test_setup w)) = seen_jobs w
  /\ telegram_calls (snd (test_setup w)) = telegram_calls w
  /\ telegram (snd (test_setup w)) = tl (telegram w).
Proof. unfold test_setup. destruct (telegram w) eqn:E; cbn; rewrite ?E; auto. Qed.

(** X17. [main] runs its first cycle exactly when both credentials are
    set and not empty, the table could be created and the test message
    went through; it then runs it on the state the test message left.
    Missing credentials are reported before the database is touched, and
    when the test message fails [main] returns with the ledger as it was
    and no job posted. *)
Theorem first_cycle_needs_setup env w :
  ((exists w', main_startup env w = Scheduling w') <->
   unset (TELEGRAM_BOT_TOKEN env) = false /\ unset (TELEGRAM_CHAT_ID env) = false
   /\ sqlite_ok w = true /\ hd false (telegram w) = true)
  /\ (forall w', main_startup env w = Scheduling w' ->
                 w' = run_scraping_cycle (snd (test_setup w)))
  /\ (unset (TELEGRAM_BOT_TOKEN env) || unset (TELEGRAM_CHAT_ID env) = true ->
      main_startup env w = Fatal MissingCredentials)
  /\ (forall w', main_startup env w = SetupFailed w' ->
                 seen_jobs w' = seen_jobs w /\ telegram_calls w' = telegram_calls w).
Proof.
  unfold main_startup, init_scraper, init_database.
  destruct (test_setup_eq w) as (Hsent & Hseen & Hcalls & _).
  destruct (unset (TELEGRAM_BOT_TOKEN env)); cbn [orb].
  { split; [split; [intros [w' H]; discriminate | intros (H & _); discriminate]|].
    split; [intros w' H; discriminate|].
    split; [intros _; reflexivity|]. intros w' H. discriminate. }
  destruct (unset (TELEGRAM_CHAT_ID env)).
  { split; [split; [intros [w' H]; discriminate | intros (_ & H & _); discriminate]|].
    split; [intros w' H; discriminate|].
    split; [intros _; reflexivity|]. intros w' H. discriminate. }
  destruct (sqlite_ok w).
  - destruct (test_setup w) as [passed w1]. cbn [fst snd] in *. rewrite <- Hsent.
    destruct passed.
    + split; [split; [intros _; auto | intros _; eauto]|].
      split; [intros w' H; injection H as <-; reflexivity|].
      split; [intros H; discriminate|]. intros w' H. discriminate.
    + split; [split; [intros [w' H]; discriminate
                     | intros (_ & _ & _ & H); discriminate]|].
      split; [intros w' H; discriminate|].
      split; [intros H; discriminate|].
      intros w' H. injection H as <-. split; assumption.
  - split; [split; [intros [w' H]; discriminate
                   | intros (_ & _ & H & _); discriminate]|].
    split; [intros w' H; discriminate|].
    split; [intros H; discriminate|]. intros w' H. discriminate.
Qed.


(** ** Posts per identifier *)

Lemma filtered_with_identifier w id jobs :
  length (List.filter (fun job_data => String.eqb (job_id job_data) id)
            (spec_filter w jobs)) =
  length (List.filter
            (fun job => notifiable w job
                        && String.eqb (dict_get (raw_id_icims job) "") id) jobs).
Proof.
  unfold spec_filter.
  induction jobs as [|job jobs IH]; [reflexivity|].
  cbn [List.filter]. destruct (notifiable w job); cbn [andb map List.filter].
  - cbn [job_data_of job_id].
    destruct (String.eqb (dict_get (raw_id_icims job) "") id); cbn [length];
      rewrite IH; reflexivity.
  - exact IH.
Qed.

Lemma at_most_one_with_identifier (P : RawJob -> bool) id jobs :
  NoDup (map (fun job => dict_get (raw_id_icims job) "") jobs) ->
  (length (List.filter
             (fun job => P job && String.eqb (dict_get (raw_id_icims job) "") id) jobs)
   <= 1)%nat.
Proof.
  induction jobs as [|job jobs IH]; intros Hnodup; cbn [List.filter length]; [lia|].
  cbn [map] in Hnodup. apply NoDup_cons in Hnodup. destruct Hnodup as [Hfresh Hnodup].
  destruct (String.eqb_spec (dict_get (raw_id_icims job) "") id) as [Heq|Hne].
  - assert (Hrest : List.filter
                      (fun job => P job && String.eqb (dict_get (raw_id_icims job) "") id)
                      jobs = []).
    { rewrite <- (List.filter_false jobs). apply List.filter_ext_in. intros other Hin.
      destruct (String.eqb_spec (dict_get (raw_id_icims other) "") id) as [Heq'|];
        [|apply andb_false_r].
      exfalso. apply Hfresh. apply list_elem_of_In, in_map_iff.
      exists other. split; [congruence | exact Hin]. }
    rewrite Hrest. destruct (P job); cbn [andb length]; lia.
  - rewrite andb_false_r. apply IH. exact Hnodup.
Qed.

(** X18. In one cycle an identifier is posted exactly as many times as
    the fetched list holds notifiable records carrying it.  When the
    identifiers of the fetched list are pairwise distinct, each one is
    posted at most once. *)
Theorem cycle_posts_per_identifier w id :
  posts_for id (telegram_calls (run_scraping_cycle w)) =
  (posts_for id (telegram_calls w)
   + length (List.filter
               (fun job => notifiable w job
                           && String.eqb (dict_get (raw_id_icims job) "") id)
               (fetch_jobs w)))%nat
  /\ (NoDup (map (fun job => dict_get (raw_id_icims job) "") (fetch_jobs w)) ->
      (posts_for id (telegram_calls (run_scraping_cycle w))
       <= posts_for id (telegram_calls w) + 1)%nat).
Proof.
  assert (Hcount : posts_for id (telegram_calls (run_scraping_cycle w)) =
                   (posts_for id (telegram_calls w)
                    + length (List.filter
                                (fun job => notifiable w job
                                            && String.eqb (dict_get (raw_id_icims job) "") id)
                                (fetch_jobs w)))%nat).
  { rewrite run_scraping_cycle_calls, posts_for_app, posts_for_outcomes.
    rewrite filter_sde1_jobs_spec, filtered_with_identifier. reflexivity. }
  split; [exact Hcount|].
  intros Hnodup. rewrite Hcount.
  pose proof (at_most_one_with_identifier (notifiable w) id (fetch_jobs w) Hnodup). lia.
Qed.

End Scraper.

(** ** The properties at concrete inputs *)

Lemma fresh_iff_within_24h_witness :
  parse_posted_date strptime_padded date_formats "2024-01-20"
    = Some (Calendar.of_ymd 2024 1 20)
  /\ now (morning RequestError []) - Calendar.of_ymd 2024 1 20 < 0
  /\ is_recent_job strptime_padded (morning RequestError []) "2024-01-20" = true.
Proof.
  split; [reflexivity|]. split; [reflexivity|].
  apply (proj2 (fresh_iff_within_24h strptime_padded (morning RequestError [])
                  "2024-01-20" (Calendar.of_ymd 2024 1 20) eq_refl)).
  reflexivity.
Defined.

Lemma record_then_seen_witness :
  sqlite_ok (morning RequestError []) = true
  /\ is_job_seen (mark_job_as_seen (job_data_of alexa) (morning RequestError []))
       (job_id (job_data_of alexa)) = true.
Proof.
  split; [reflexivity|].
  apply (record_then_seen (morning RequestError []) (job_data_of alexa)). reflexivity.
Defined.

Lemma failed_fetch_cycle_is_noop_witness :
  fetch_fails (amazon (morning RequestError [true])) = true
  /\ fetch_jobs (morning RequestError [true]) = []
  /\ run_scraping_cycle strptime_padded (morning RequestError [true]) = morning RequestError [true]
  /\ telegram_calls (run_scraping_cycle strptime_padded (morning RequestError [true])) = []
  /\ seen_jobs (run_scraping_cycle strptime_padded (morning RequestError [true])) = ∅.
Proof.
  split; [reflexivity|].
  apply (failed_fetch_cycle_is_noop strptime_padded (morning RequestError [true])).
  reflexivity.
Defined.


Lemma missing_identifier_shares_empty_key_witness :
  raw_id_icims kindle = None
  /\ role_match kindle = true
  /\ fresh strptime_padded (morning RequestError []) kindle = true
  /\ is_job_seen (morning RequestError []) "" = false
  /\ filter_sde1_jobs strptime_padded (morning RequestError []) ([alexa] ++ kindle :: [devices])
     = filter_sde1_jobs strptime_padded (morning RequestError []) [alexa]
       ++ job_data_of kindle
          :: filter_sde1_jobs strptime_padded (morning RequestError []) [devices]
  /\ url (job_data_of kindle) = "https://www.amazon.jobs/en/jobs//apply"
  /\ is_job_seen (mark_job_as_seen (job_data_of kindle) (morning RequestError [])) "" = true
  /\ filter_sde1_jobs strptime_padded
       (mark_job_as_seen (job_data_of kindle) (morning RequestError []))
       [alexa; kindle; fire_tv]
     = filter_sde1_jobs strptime_padded
         (mark_job_as_seen (job_data_of kindle) (morning RequestError []))
         (List.filter has_id [alexa; kindle; fire_tv]).
Proof.
  assert (Hfresh : fresh strptime_padded (morning RequestError []) kindle = true)
    by reflexivity.
  assert (Hseen : is_job_seen (mark_job_as_seen (job_data_of kindle)
                                 (morning RequestError [])) "" = true).
  { exact (proj1 (proj2 (missing_identifier_shares_empty_key strptime_padded
                           (morning RequestError [])))
             (job_data_of kindle) eq_refl eq_refl). }
  destruct (proj1 (missing_identifier_shares_empty_key strptime_padded
                     (morning RequestError []))
              kindle [alexa] [devices] eq_refl eq_refl Hfresh eq_refl)
    as (Hout & _ & Hurl).
  split; [reflexivity|]. split; [reflexivity|]. split; [exact Hfresh|].
  split; [reflexivity|]. split; [exact Hout|]. split; [exact Hurl|].
  split; [exact Hseen|].
  exact (proj2 (proj2 (missing_identifier_shares_empty_key strptime_padded
                         (mark_job_as_seen (job_data_of kindle) (morning RequestError []))))
           [alexa; kindle; fire_tv] Hseen).
Defined.

Lemma duplicate_identifier_posted_twice_witness :
  role_match alexa = true
  /\ fresh strptime_padded (morning (Body (Some [alexa; devices; alexa_reposted])) [true; true; true]) alexa = true
  /\ role_match alexa_reposted = true
  /\ is_job_seen (morning (Body (Some [alexa; devices; alexa_reposted])) [true; true; true])
       "2500001" = false
  /\ filter_sde1_jobs strptime_padded
       (morning (Body (Some [alexa; devices; alexa_reposted])) [true; true; true])
       [alexa; devices; alexa_reposted]
     = [job_data_of alexa; job_data_of devices; job_data_of alexa_reposted]
  /\ (2 <= posts_for "2500001"
             (telegram_calls
                (run_scraping_cycle strptime_padded
                   (morning (Body (Some [alexa; devices; alexa_reposted]))
                      [true; true; true]))))%nat
  /\ (2 <= delivered_for "2500001"
             (telegram_calls
                (run_scraping_cycle strptime_padded
                   (morning (Body (Some [alexa; devices; alexa_reposted]))
                      [true; true; true]))))%nat.
Proof.
  pose proof (duplicate_identifier_posted_twice strptime_padded
                (morning (Body (Some [alexa; devices; alexa_reposted])) [true; true; true])
                [] alexa [devices] alexa_reposted []
                eq_refl eq_refl eq_refl eq_refl eq_refl eq_refl) as [Hout Hcycle].
  destruct (Hcycle eq_refl) as [Hposts Hsent].
  split; [reflexivity|]. split; [reflexivity|]. split; [reflexivity|].
  split; [reflexivity|]. split; [exact Hout|]. split; [exact Hposts|].
  apply Hsent. vm_compute. intros c Hc.
  repeat (destruct Hc as [<-|Hc]; [reflexivity|]). destruct Hc.
Defined.

Lemma failed_delivery_not_recorded_witness :
  fst (send_telegram_notification (job_data_of alexa)
         (morning (Body (Some [alexa; devices])) [false; true])) = false
  /\ notify_all [job_data_of alexa; job_data_of devices]
       (morning (Body (Some [alexa; devices])) [false; true])
     = notify_all [job_data_of devices]
         (snd (send_telegram_notification (job_data_of alexa)
                 (morning (Body (Some [alexa; devices])) [false; true])))
  /\ In (job_data_of alexa)
       (filter_sde1_jobs strptime_padded (morning (Body (Some [alexa; devices])) [false; true])
          (fetch_jobs (morning (Body (Some [alexa; devices])) [false; true])))
  /\ seen_jobs (run_scraping_cycle strptime_padded
                  (morning (Body (Some [alexa; devices])) [false; true])) !! "2500001" = None
  /\ In (job_data_of alexa)
       (filter_sde1_jobs strptime_padded
          (run_scraping_cycle strptime_padded
             (morning (Body (Some [alexa; devices])) [false; true]))
          [alexa; devices]).
Proof.
  pose proof (failed_delivery_not_recorded strptime_padded
                (morning (Body (Some [alexa; devices])) [false; true])) as [Hstep Hcycle].
  assert (Hin : In (job_data_of alexa)
                  (filter_sde1_jobs strptime_padded
                     (morning (Body (Some [alexa; devices])) [false; true])
                     (fetch_jobs (morning (Body (Some [alexa; devices])) [false; true]))))
    by (vm_compute; left; reflexivity).
  assert (Hnone : forall c,
             In c (outcomes
                     (filter_sde1_jobs strptime_padded
                        (morning (Body (Some [alexa; devices])) [false; true])
                        (fetch_jobs (morning (Body (Some [alexa; devices])) [false; true])))
                     (telegram (morning (Body (Some [alexa; devices])) [false; true]))) ->
             job_id (fst c) = job_id (job_data_of alexa) -> snd c = false).
  { vm_compute. intros c [<-|[<-|[]]] Hid; [reflexivity | discriminate Hid]. }
  destruct (Hcycle (job_data_of alexa) Hin Hnone) as [Hrow Hnext].
  split; [reflexivity|].
  split; [exact (proj2 (Hstep (job_data_of alexa) [job_data_of devices] eq_refl))|].
  split; [exact Hin|]. split; [exact Hrow|].
  apply (Hnext _ [alexa; devices] alexa).
  - split; reflexivity.
  - left. reflexivity.
  - reflexivity.
  - reflexivity.
  - reflexivity.
Defined.

(** C3, as stated, fails when two jobs of one batch share an identifier
    (here both lack [id_icims]): the post for the first fails, the post for
    the second goes through and records the shared identifier, and the next
    filter pass over the same raw list leaves the first job out. *)
Lemma failed_delivery_counterexample :
  In (job_data_of kindle, false)
    (outcomes
       (filter_sde1_jobs strptime_padded (morning (Body (Some [kindle; fire_tv])) [false; true])
          (fetch_jobs (morning (Body (Some [kindle; fire_tv])) [false; true])))
       (telegram (morning (Body (Some [kindle; fire_tv])) [false; true])))
  /\ seen_jobs (morning (Body (Some [kindle; fire_tv])) [false; true])
       !! job_id (job_data_of kindle) = None
  /\ seen_jobs (run_scraping_cycle strptime_padded
                  (morning (Body (Some [kindle; fire_tv])) [false; true]))
       !! job_id (job_data_of kindle) <> None
  /\ filter_sde1_jobs strptime_padded
       (run_scraping_cycle strptime_padded
          (morning (Body (Some [kindle; fire_tv])) [false; true]))
       [kindle; fire_tv] = [].
Proof.
  split; [vm_compute; left; reflexivity|].
  split; [reflexivity|].
  split; [vm_compute; discriminate|].
  vm_compute. reflexivity.
Qed.

Lemma sweep_deletes_earlier_days_witness :
  sqlite_ok midnight = true
  /\ Calendar.in_rangeb (now midnight - 30 * Calendar.us_per_day) = true
  /\ rows_in_range midnight = true
  /\ seen_jobs midnight !! "2400001" = Some (sample_row "SDE I, Ads" (at_clock 2023 12 25 8 0))
  /\ seen_jobs (fst (cleanup_old_jobs 30 midnight)) !! "2400001" = None
  /\ seen_jobs (fst (cleanup_old_jobs 30 midnight)) !! "2500002"
     = Some (sample_row "SDE 1 - Devices" (at_clock 2024 1 10 9 30))
  /\ (size (seen_jobs (fst (cleanup_old_jobs 30 midnight))) <= size (seen_jobs midnight))%nat.
Proof.
  assert (Hok : sqlite_ok midnight = true) by reflexivity.
  assert (Hcut : Calendar.in_rangeb (now midnight - 30 * Calendar.us_per_day) = true)
    by (vm_compute; reflexivity).
  assert (Hrows : rows_in_range midnight = true) by (vm_compute; reflexivity).
  assert (Hold : seen_jobs midnight !! "2400001"
                 = Some (sample_row "SDE I, Ads" (at_clock 2023 12 25 8 0)))
    by (vm_compute; reflexivity).
  assert (Hnew : seen_jobs midnight !! "2500002"
                 = Some (sample_row "SDE 1 - Devices" (at_clock 2024 1 10 9 30)))
    by (vm_compute; reflexivity).
  destruct (sweep_deletes_earlier_days 30 midnight Hok Hcut Hrows)
    as (Hearlier & Hlater & _ & Hsize & _).
  split; [exact Hok|]. split; [exact Hcut|]. split; [exact Hrows|]. split; [exact Hold|].
  split; [apply (Hearlier _ _ Hold); vm_compute; reflexivity|].
  split; [apply (Hlater _ _ Hnew); vm_compute; reflexivity|].
  exact Hsize.
Defined.

(** C6, as stated, fails on a row recorded on the day of the cutoff: at
    00:05 on 31 January, inside the window in which the cycle calls the
    sweep, a row recorded on 1 January at 23:00 is newer than now minus
    thirty days (1 January, 00:05) and is deleted all the same; the count
    goes to the log, the method returns nothing. *)
Lemma sweep_counterexample :
  in_cleanup_window midnight = true
  /\ seen_jobs midnight !! "2500001"
     = Some (sample_row "SDE I, Alexa" (at_clock 2024 1 1 23 0))
  /\ now midnight - 30 * Calendar.us_per_day < at_clock 2024 1 1 23 0
  /\ seen_jobs (fst (cleanup_old_jobs 30 midnight)) !! "2500001" = None
  /\ snd (cleanup_old_jobs 30 midnight) = Some 2%nat.
Proof.
  split; [vm_compute; reflexivity|].
  split; [vm_compute; reflexivity|].
  split; [vm_compute; reflexivity|].
  split; vm_compute; reflexivity.
Qed.

Lemma rerecording_replaces_row_witness :
  sqlite_ok (mark_job_as_seen (job_data_of alexa) (morning RequestError [])) = true
  /\ seen_jobs (mark_job_as_seen (job_data_of alexa_reposted)
                  (sleep 900 (mark_job_as_seen (job_data_of alexa) (morning RequestError []))))
       !! "2500001"
     = Some {| seen_title := "SDE I, Alexa (reposted)"; seen_location := "Seattle, WA, USA";
               seen_posted_date := "2024-01-15"; created_at := at_clock 2024 1 15 10 15 |}
  /\ size (seen_jobs (mark_job_as_seen (job_data_of alexa_reposted)
                        (sleep 900 (mark_job_as_seen (job_data_of alexa)
                                      (morning RequestError [])))))
     = size (seen_jobs (sleep 900 (mark_job_as_seen (job_data_of alexa)
                                     (morning RequestError [])))).
Proof.
  destruct (rerecording_replaces_row
              (sleep 900 (mark_job_as_seen (job_data_of alexa) (morning RequestError [])))
              (job_data_of alexa_reposted) eq_refl) as (Hrow & _ & Hsize & _).
  split; [reflexivity|]. split; [exact Hrow|].
  apply Hsize. vm_compute. eauto.
Defined.

(** C7, as stated, fails: recording an identifier again, as the loop does
    one second later for a second job with the same identifier, changes the
    stored row; with the very same job it changes the recorded-at
    timestamp. *)
Lemma rerecording_counterexample :
  seen_jobs (mark_job_as_seen (job_data_of alexa)
               (sleep 1 (mark_job_as_seen (job_data_of alexa) (morning RequestError []))))
    !! "2500001"
  <> seen_jobs (mark_job_as_seen (job_data_of alexa) (morning RequestError [])) !! "2500001"
  /\ created_at <$> seen_jobs (notify_all [job_data_of alexa]
                                 (morning RequestError [true; true])) !! "2500001"
     = Some (at_clock 2024 1 15 10 0)
  /\ created_at <$> seen_jobs (notify_all [job_data_of alexa; job_data_of alexa]
                                 (morning RequestError [true; true])) !! "2500001"
     = Some (at_clock 2024 1 15 10 0 + 1 * Calendar.us_per_second).
Proof.
  split; [vm_compute; discriminate|].
  split; vm_compute; reflexivity.
Qed.

(** ** The further properties at concrete inputs *)

Lemma filter_fails_open_witness :
  sqlite_ok (storage_down (mark_job_as_seen (job_data_of alexa) (morning RequestError [])))
    = false
  /\ is_Some (seen_jobs (storage_down (mark_job_as_seen (job_data_of alexa)
                                         (morning RequestError []))) !! "2500001")
  /\ filter_sde1_jobs strptime_padded
       (storage_down (mark_job_as_seen (job_data_of alexa) (morning RequestError [])))
       [alexa; manager]
     = [job_data_of alexa].
Proof.
  split; [reflexivity|]. split; [vm_compute; eauto|].
  rewrite (filter_fails_open strptime_padded
             (storage_down (mark_job_as_seen (job_data_of alexa) (morning RequestError [])))
             [alexa; manager] eq_refl).
  reflexivity.
Defined.

Lemma cycle_with_storage_down_keeps_table_witness :
  sqlite_ok (storage_down (morning (Body (Some [alexa])) [true])) = false
  /\ telegram_calls (run_scraping_cycle strptime_padded
                       (storage_down (morning (Body (Some [alexa])) [true])))
     = [(job_data_of alexa, true)]
  /\ seen_jobs (run_scraping_cycle strptime_padded
                  (storage_down (morning (Body (Some [alexa])) [true])))
     = seen_jobs (storage_down (morning (Body (Some [alexa])) [true])).
Proof.
  split; [reflexivity|]. split; [vm_compute; reflexivity|].
  apply (cycle_with_storage_down_keeps_table strptime_padded
           (storage_down (morning (Body (Some [alexa])) [true]))).
  reflexivity.
Defined.

Lemma cycle_without_new_jobs_is_noop_witness :
  in_cleanup_window (with_amazon (Body (Some [manager])) [true] midnight) = true
  /\ filter_sde1_jobs strptime_padded (with_amazon (Body (Some [manager])) [true] midnight)
       (fetch_jobs (with_amazon (Body (Some [manager])) [true] midnight)) = []
  /\ run_scraping_cycle strptime_padded (with_amazon (Body (Some [manager])) [true] midnight)
     = with_amazon (Body (Some [manager])) [true] midnight.
Proof.
  split; [vm_compute; reflexivity|]. split; [vm_compute; reflexivity|].
  apply (cycle_without_new_jobs_is_noop strptime_padded
           (with_amazon (Body (Some [manager])) [true] midnight)).
  vm_compute. reflexivity.
Defined.

Lemma loop_records_delivered_jobs_witness :
  sqlite_ok (morning RequestError [true; false]) = true
  /\ In (job_data_of alexa, true)
       (outcomes [job_data_of alexa; job_data_of devices]
          (telegram (morning RequestError [true; false])))
  /\ is_Some (seen_jobs (notify_all [job_data_of alexa; job_data_of devices]
                           (morning RequestError [true; false])) !! "2500001").
Proof.
  assert (Hsent : In (job_data_of alexa, true)
                    (outcomes [job_data_of alexa; job_data_of devices]
                       (telegram (morning RequestError [true; false]))))
    by (left; reflexivity).
  split; [reflexivity|]. split; [exact Hsent|].
  apply (proj2 (loop_records_delivered_jobs
                  [job_data_of alexa; job_data_of devices]
                  (morning RequestError [true; false]) "2500001" eq_refl)).
  right. exists (job_data_of alexa). split; [exact Hsent | reflexivity].
Defined.

Lemma sweep_keeps_later_days_only_witness :
  sqlite_ok midnight = true
  /\ Calendar.in_rangeb (now midnight - 30 * Calendar.us_per_day) = true
  /\ rows_in_range midnight = true
  /\ seen_jobs (fst (cleanup_old_jobs 30 midnight)) !! "2500002"
     = Some (sample_row "SDE 1 - Devices" (at_clock 2024 1 10 9 30)).
Proof.
  assert (Hcut : Calendar.in_rangeb (now midnight - 30 * Calendar.us_per_day) = true)
    by (vm_compute; reflexivity).
  assert (Hrows : rows_in_range midnight = true) by (vm_compute; reflexivity).
  split; [reflexivity|]. split; [exact Hcut|]. split; [exact Hrows|].
  apply (proj2 (sweep_keeps_later_days_only 30 midnight "2500002"
                  (sample_row "SDE 1 - Devices" (at_clock 2024 1 10 9 30))
                  eq_refl Hcut Hrows)).
  split; vm_compute; reflexivity.
Defined.

Lemma cycle_keeps_rows_in_range_witness :
  rows_in_range (morning (Body (Some [alexa; devices])) [true; true]) = true
  /\ Calendar.in_rangeb (utc_now (morning (Body (Some [alexa; devices])) [true; true])) = true
  /\ rows_in_range (run_scraping_cycle strptime_padded
                      (morning (Body (Some [alexa; devices])) [true; true])) = true.
Proof.
  split; [vm_compute; reflexivity|]. split; [vm_compute; reflexivity|].
  apply (cycle_keeps_rows_in_range strptime_padded
           (morning (Body (Some [alexa; devices])) [true; true])).
  - vm_compute. reflexivity.
  - apply in_rangeb_in_range. vm_compute. reflexivity.
  - apply in_rangeb_in_range. vm_compute. reflexivity.
Defined.


Lemma unparsable_date_is_left_out_witness :
  (forall fmt, In fmt date_formats ->
               strptime_padded (dict_get (raw_posted_date undated) "") fmt = None)
  /\ is_recent_job strptime_padded (morning RequestError [])
       (dict_get (raw_posted_date undated) "") = false
  /\ filter_sde1_jobs strptime_padded (morning RequestError []) ([alexa] ++ undated :: [devices])
     = filter_sde1_jobs strptime_padded (morning RequestError []) ([alexa] ++ [devices]).
Proof.
  assert (Hnone : forall fmt, In fmt date_formats ->
                    strptime_padded (dict_get (raw_posted_date undated) "") fmt = None).
  { intros fmt [<-|[<-|[<-|[<-|[]]]]]; reflexivity. }
  split; [exact Hnone|].
  exact (unparsable_date_is_left_out strptime_padded (morning RequestError [])
           undated [alexa] [devices] Hnone).
Defined.

Lemma first_accepting_format_decides_witness :
  strptime_padded "2024-01-15" "%Y-%m-%d" = Some (Calendar.of_ymd 2024 1 15)
  /\ is_recent_job strptime_padded (morning RequestError []) "2024-01-15"
     = (now (morning RequestError []) - Calendar.of_ymd 2024 1 15
        <=? 24 * 60 * 60 * Calendar.us_per_second).
Proof.
  split; [reflexivity|].
  apply (first_accepting_format_decides strptime_padded (morning RequestError [])
           ["%B %d, %Y"; "%b %d, %Y"] "%Y-%m-%d" ["%m/%d/%Y"]
           "2024-01-15" (Calendar.of_ymd 2024 1 15) eq_refl).
  - intros f [<-|[<-|[]]]; reflexivity.
  - reflexivity.
Defined.

Lemma stale_stays_stale_witness :
  now (morning RequestError []) <= now (sleep 3600 (morning RequestError []))
  /\ is_recent_job strptime_padded (morning RequestError []) "2024-01-10" = false
  /\ is_recent_job strptime_padded (sleep 3600 (morning RequestError [])) "2024-01-10" = false.
Proof.
  assert (Hle : now (morning RequestError []) <= now (sleep 3600 (morning RequestError [])))
    by (vm_compute; discriminate).
  split; [exact Hle|]. split; [reflexivity|].
  apply (stale_stays_stale strptime_padded (morning RequestError [])
           (sleep 3600 (morning RequestError [])) "2024-01-10" Hle).
  reflexivity.
Defined.

Lemma role_match_survives_embedding_witness :
  dict_get (raw_title level_three) ""
    = "Senior " +:+ dict_get (raw_title level_one) "" +:+ "II, Alexa"
  /\ role_match level_one = true
  /\ role_match level_three = true.
Proof.
  split; [reflexivity|]. split; [reflexivity|].
  apply (role_match_survives_embedding level_one level_three "Senior " "II, Alexa");
    reflexivity.
Defined.

Lemma untitled_record_is_left_out_witness :
  raw_title untitled = None
  /\ filter_sde1_jobs strptime_padded (morning RequestError []) ([alexa] ++ untitled :: [devices])
     = filter_sde1_jobs strptime_padded (morning RequestError []) ([alexa] ++ [devices]).
Proof.
  split; [reflexivity|].
  apply (untitled_record_is_left_out strptime_padded (morning RequestError [])
           untitled [alexa] [devices]).
  reflexivity.
Defined.

Lemma first_cycle_needs_setup_witness :
  unset (TELEGRAM_BOT_TOKEN credentials) = false
  /\ unset (TELEGRAM_CHAT_ID credentials) = false
  /\ sqlite_ok (morning (Body (Some [alexa])) [true; true]) = true
  /\ hd false (telegram (morning (Body (Some [alexa])) [true; true])) = true
  /\ exists w', main_startup strptime_padded credentials
                  (morning (Body (Some [alexa])) [true; true]) = Scheduling w'.
Proof.
  split; [reflexivity|]. split; [reflexivity|]. split; [reflexivity|].
  split; [reflexivity|].
  apply (proj2 (proj1 (first_cycle_needs_setup strptime_padded credentials
                         (morning (Body (Some [alexa])) [true; true])))).
  repeat split.
Defined.

Lemma cycle_posts_per_identifier_witness :
  NoDup (map (fun job => dict_get (raw_id_icims job) "")
           (fetch_jobs (morning (Body (Some [alexa; devices])) [true; true])))
  /\ (posts_for "2500001"
        (telegram_calls (run_scraping_cycle strptime_padded
                           (morning (Body (Some [alexa; devices])) [true; true])))
      <= posts_for "2500001"
           (telegram_calls (morning (Body (Some [alexa; devices])) [true; true])) + 1)%nat.
Proof.
  assert (Hnodup : NoDup (map (fun job => dict_get (raw_id_icims job) "")
                            (fetch_jobs (morning (Body (Some [alexa; devices]))
                                           [true; true])))).
  { apply NoDup_cons. split.
    - intros Hin. apply list_elem_of_In in Hin. destruct Hin as [Heq|[]]. discriminate Heq.
    - apply NoDup_cons. split; [intros Hin; apply list_elem_of_In in Hin; destruct Hin|].
      apply NoDup_nil. exact I. }
  split; [exact Hnodup|].
  exact (proj2 (cycle_posts_per_identifier strptime_padded
                  (morning (Body (Some [alexa; devices])) [true; true]) "2500001") Hnodup).
Defined.

(** The replay scenario: one matching job posted today with an unseen
    identifier is put out once; after the cycle that delivered it, the same
    raw list yields nothing. *)
Example replay_scenario :
  filter_sde1_jobs strptime_padded (morning (Body (Some [alexa])) [true]) [alexa]
    = [job_data_of alexa]
  /\ telegram_calls (run_scraping_cycle strptime_padded (morning (Body (Some [alexa])) [true]))
     = [(job_data_of alexa, true)]
  /\ filter_sde1_jobs strptime_padded
       (run_scraping_cycle strptime_padded (morning (Body (Some [alexa])) [true])) [alexa]
     = [].
Proof. repeat split; vm_compute; reflexivity. Qed.

(** A date no format accepts is not fresh. *)
Example unparsable_date_scenario :
  is_recent_job strptime_padded (morning RequestError []) "today" = false.
Proof. reflexivity. Qed.

Example lower_demo : PyStr.lower "SDE I - Alexa" = "sde i - alexa".
Proof. reflexivity. Qed.

Example contains_demo :
  PyStr.contains "sde i" "senior sde ii" = true /\ PyStr.contains "sde 1" "sde i" = false.
Proof. split; reflexivity. Qed.

Example iso_demo :
  Calendar.isoformat (Calendar.of_ymd 2024 1 31 + 36000 * 1000000 + 5) = "2024-01-31T10:00:00.000005"
  /\ Calendar.sqlite_timestamp (Calendar.of_ymd 2023 12 8 + 86399 * 1000000) = "2023-12-08 23:59:59".
Proof. split; vm_compute; reflexivity. Qed.
